(** * mern-cli: a shallow embedding of [src/index.js]

    The tool is a command dispatcher with seven actions.  Each action is a
    straight sequence of calls into Node's [path], [fs] (through
    [fs-extra]), [chalk] and [console], wrapped in one [try]/[catch].

    The development has four layers:
    - strings and paths ([Str.trim], [Path.join]);
    - the process: completions of JavaScript statements and a small monad
      that threads the process state and the trace of observable events;
    - the actions of [index.js], written against an interface of the four
      file-system calls the source makes;
    - a tree model of the file system implementing that interface, and the
      properties of the commands. *)

From Stdlib Require Import List String Ascii Bool Arith Lia.
Import ListNotations.
Local Open Scope list_scope.
Local Open Scope string_scope.

Set Implicit Arguments.
Set Warnings "-register-all".

(* ================================================================= *)
(** ** Strings *)

Module Str.

(** The line terminator of the template literals of [index.js]. *)
Definition nl : string := String (ascii_of_nat 10) EmptyString.

(** White space as [String.prototype.trim] sees it, on the one-byte
    characters: TAB, LF, VT, FF, CR and SPACE. *)
Definition is_space (c : ascii) : bool :=
  let n := nat_of_ascii c in
  Nat.eqb n 9 || Nat.eqb n 10 || Nat.eqb n 11 || Nat.eqb n 12
  || Nat.eqb n 13 || Nat.eqb n 32.

Fixpoint trim_start (s : string) : string :=
  match s with
  | EmptyString => EmptyString
  | String c r => if is_space c then trim_start r else s
  end.

Fixpoint trim_end (s : string) : string :=
  match s with
  | EmptyString => EmptyString
  | String c r =>
      match trim_end r with
      | EmptyString => if is_space c then EmptyString else String c EmptyString
      | r' => String c r'
      end
  end.

(** [s.trim()] *)
Definition trim (s : string) : string := trim_end (trim_start s).

(** [s.toLowerCase()], on the one-byte characters. *)
Definition lower (c : ascii) : ascii :=
  let n := nat_of_ascii c in
  if Nat.leb 65 n && Nat.leb n 90 then ascii_of_nat (n + 32) else c.

Fixpoint toLowerCase (s : string) : string :=
  match s with
  | EmptyString => EmptyString
  | String c r => String (lower c) (toLowerCase r)
  end.

(** [t] occurs in [s] as a contiguous run of characters. *)
Definition occurs_in (t s : string) : Prop :=
  exists pre post, s = pre ++ t ++ post.

(** The pieces of [s] between occurrences of the separator [sep]; always
    at least one piece. *)
Fixpoint split_on (sep : ascii) (s : string) : list string :=
  match s with
  | EmptyString => [EmptyString]
  | String c r =>
      if Ascii.eqb c sep then EmptyString :: split_on sep r
      else match split_on sep r with
           | [] => [String c EmptyString]
           | h :: t => String c h :: t
           end
  end.

(** A name that stays in one directory: no path separator in it. *)
Fixpoint has_slash (s : string) : bool :=
  match s with
  | EmptyString => false
  | String c r => Ascii.eqb c "/" || has_slash r
  end.

(** [t] occurs in [s], decided. *)
Fixpoint contains (t s : string) : bool :=
  String.prefix t s
  || match s with
     | EmptyString => false
     | String _ r => contains t r
     end.

End Str.

(* ================================================================= *)
(** ** Paths

  A path is the list of its components below the root: [process.cwd()],
  [__dirname] and every value of [path.join] are absolute and normalized. *)

Definition path := list string.

Module Path.

(** One component of an argument of [path.join]: empty components and
    ["."] are dropped, [".."] removes the last component (the root is its
    own parent). *)
Definition step (p : path) (seg : string) : path :=
  if String.eqb seg "" then p
  else if String.eqb seg "." then p
  else if String.eqb seg ".." then removelast p
  else (p ++ [seg])%list.

(** [path.join(base, rel)] for an absolute, normalized [base] (POSIX). *)
Definition join (base : path) (rel : string) : path :=
  fold_left step (Str.split_on "/" rel) base.

(** [path.dirname(p)] *)
Definition dirname (p : path) : path := removelast p.

Fixpoint is_prefix (p q : path) : bool :=
  match p, q with
  | [], _ => true
  | a :: p', b :: q' => String.eqb a b && is_prefix p' q'
  | _ :: _, [] => false
  end.

Fixpoint eqb (p q : path) : bool :=
  match p, q with
  | [], [] => true
  | a :: p', b :: q' => String.eqb a b && eqb p' q'
  | _, _ => false
  end.

End Path.

(* ================================================================= *)
(** ** The process: errors, events, completions *)

Inductive errno := ENOENT | ENOTDIR | EISDIR | EEXIST | EACCES | ENOSPC | EIO.

(** What a JavaScript [throw] can carry in this program. *)
Inductive error :=
| SystemError (code : errno) (syscall : string) (p : path)
| LibraryError (message : string)
| ReferenceError (ident : string).

Inductive color := Blue | Green | Red.

(** The events of a run, in the order they happen.  The console events
    are the program's own output and [Question] is a prompt written by
    [readline]; the [Call*] events record the calls into [fs], and
    [Threw] that an exception was raised. *)
Inductive event :=
| Log (c : color) (text : string)
| LogError (c : color) (text : string) (err : error)
| CallExists (p : path) (answer : bool)
| CallMkdir (p : path)
| CallWrite (p : path) (content : string)
| CallCopy (src dest : path)
| Question (text : string)
| Threw (e : error).

(** How a statement list ends: it falls through with a value, executes
    [return;], or throws. *)
Inductive completion (A : Type) :=
| Normal (a : A)
| Return
| Throw (e : error).

Arguments Normal {A} a.
Arguments Return {A}.
Arguments Throw {A} e.

(** The state of one run of the tool, over a file system of type [S]. *)
Record process (S : Type) := mkProcess {
  cwd : path;              (* process.cwd() *)
  dirname : path;          (* __dirname: where index.js is installed *)
  stdin : list string;     (* the lines the user will type *)
  fs : S;
  trace : list event }.

Definition M (S A : Type) := process S -> completion A * process S.

Definition ret {S A} (a : A) : M S A := fun w => (Normal a, w).

Definition bind {S A B} (m : M S A) (k : A -> M S B) : M S B :=
  fun w =>
    match m w with
    | (Normal a, w') => k a w'
    | (Return, w') => (Return, w')
    | (Throw e, w') => (Throw e, w')
    end.

Declare Scope js_scope.
Delimit Scope js_scope with js.
Notation "x <- m ;; k" := (bind m (fun x => k))
  (at level 61, m at next level, right associativity) : js_scope.
Notation "m ;; k" := (bind m (fun _ => k))
  (at level 61, right associativity) : js_scope.
Local Open Scope js_scope.

(** [return;] *)
Definition return_ {S A} : M S A := fun w => (Return, w).

(** [try { body } catch (err) { handler }] *)
Definition try_catch {S} (body : M S unit) (handler : error -> M S unit) : M S unit :=
  fun w =>
    match body w with
    | (Throw e, w') => handler e w'
    | r => r
    end.

(** The body of a function called for its effects: [return;] ends the
    call, an exception passes through to the caller. *)
Definition call {S} (body : M S unit) : M S unit :=
  fun w =>
    match body w with
    | (Return, w') => (Normal tt, w')
    | r => r
    end.

Definition emit {S} (e : event) : M S unit :=
  fun w => (Normal tt,
            mkProcess (cwd w) (dirname w) (stdin w) (fs w) (trace w ++ [e])%list).

(** An exception is raised, by [throw e] or inside a library. *)
Definition throw {S A} (e : error) : M S A :=
  fun w => (Throw e,
            mkProcess (cwd w) (dirname w) (stdin w) (fs w) (trace w ++ [Threw e])%list).

(** What the system answers when it is asked for the working directory
    ([uv_cwd]): nothing to report, or the error it fails with, as when the
    directory has been removed under the process. *)
Class WorkingDirectory (S : Type) := {
  uv_cwd : path -> S -> option error }.

(** The working directory is there.  This is the setting of every
    statement that does not name another one. *)
#[global] Instance cwd_there {S : Type} : WorkingDirectory S := {
  uv_cwd := fun _ _ => None }.

(** [process.cwd()]: the path of the working directory, or the exception
    of the system call that could not find it. *)
Definition process_cwd {S} {WD : WorkingDirectory S} : M S path :=
  fun w =>
    match uv_cwd (cwd w) (fs w) with
    | None => (Normal (cwd w), w)
    | Some e => throw e w
    end.
Definition module_dirname {S} : M S path := fun w => (Normal (dirname w), w).

(** [console.log(chalk.c(text))] and [console.error(chalk.c(text), err)] *)
Definition console_log {S} (c : color) (text : string) : M S unit :=
  emit (Log c text).
Definition console_error {S} (c : color) (text : string) (err : error) : M S unit :=
  emit (LogError c text err).

(** [rl.question]: writes the question, takes the next line of input. *)
Definition read_answer {S} (question : string) : M S string :=
  fun w =>
    (Normal (hd "" (stdin w)),
     mkProcess (cwd w) (dirname w) (tl (stdin w)) (fs w)
               (trace w ++ [Question question])%list).

(* ================================================================= *)
(** ** The file-system calls of [index.js]

    [index.js] reaches the file system through four calls only.  Each one,
    given the state of the file system, answers or fails, and leaves a
    state behind even when it fails. *)

Class FileSystem (S : Type) := {
  existsSync : path -> S -> bool;
  (* fs.mkdirSync(p, { recursive: true }) *)
  mkdirSync : path -> S -> S * option error;
  writeFileSync : path -> string -> S -> S * option error;
  copySync : path -> path -> S -> S * option error }.

Section Calls.
Context {S : Type} {FS : FileSystem S}.

(** A call that changes the file system and may throw. *)
Definition effect (op : S -> S * option error) : M S unit :=
  fun w =>
    let (s', r) := op (fs w) in
    let w' := mkProcess (cwd w) (dirname w) (stdin w) s' (trace w) in
    match r with
    | None => (Normal tt, w')
    | Some e => throw e w'
    end.

Definition fs_existsSync (p : path) : M S bool :=
  fun w =>
    let b := existsSync p (fs w) in
    (Normal b,
     mkProcess (cwd w) (dirname w) (stdin w) (fs w) (trace w ++ [CallExists p b])%list).

Definition fs_mkdirSync (p : path) : M S unit :=
  emit (CallMkdir p) ;; effect (mkdirSync p).

Definition fs_writeFileSync (p : path) (content : string) : M S unit :=
  emit (CallWrite p content) ;; effect (writeFileSync p content).

Definition fs_copySync (src dest : path) : M S unit :=
  emit (CallCopy src dest) ;; effect (copySync src dest).

End Calls.

(* ================================================================= *)
(** ** The template literals of [index.js] *)

(** A template literal that opens with a line break right after the back
    quote and closes after the line break of its last line. *)
Definition literal (lines : list string) : string :=
  Str.nl ++ fold_right (fun line rest => line ++ Str.nl ++ rest) "" lines.

Definition componentTemplate (componentName : string) : string :=
  literal
    [ "import React from 'react';";
      "";
      "const " ++ componentName ++ " = () => {";
      "  return (";
      "    <div>";
      "      <h1>" ++ componentName ++ "</h1>";
      "    </div>";
      "  );";
      "};";
      "export default " ++ componentName ++ ";" ].

Definition modelTemplate (modelName : string) : string :=
  literal
    [ "import mongoose from 'mongoose';";
      "";
      "const " ++ modelName ++ "Schema = new mongoose.Schema({";
      "  // Define your schema here";
      "  name: { type: String, required: true },";
      "  createdAt: { type: Date, default: Date.now },";
      "});";
      "";
      "const " ++ modelName ++ " = mongoose.model('" ++ modelName ++ "', "
        ++ modelName ++ "Schema);";
      "";
      "export default " ++ modelName ++ ";" ].

Definition controllerTemplate (controllerName : string) : string :=
  "//Your Code here".

Definition routeTemplate (routeName : string) : string :=
  literal
    [ "import express from 'express';";
      "import { getAll" ++ routeName ++ "s, create" ++ routeName
        ++ " } from '../controllers/" ++ routeName ++ ".js';";
      "";
      "const router = express.Router();";
      "";
      "router.get('/', getAll" ++ routeName ++ "s);";
      "router.post('/', create" ++ routeName ++ ");";
      "";
      "export default router;" ].

Definition middlewareTemplate (fileName : string) : string :=
  literal
    [ "// Middleware boilerplate for " ++ fileName;
      "";
      "const " ++ fileName ++ " = (req, res, next) => {";
      "  // Your middleware logic here";
      "  console.log('" ++ fileName ++ " middleware triggered');";
      "  next();";
      "};";
      "";
      "export default " ++ fileName ++ ";" ].

(* ================================================================= *)
(** ** The module scope and the confirmation helper *)

(** The names [index.js] binds at module level: its five imports and its
    four [const] declarations. *)
Definition module_bindings : list string :=
  [ "Command"; "chalk"; "fs"; "path"; "fileURLToPath";
    "__filename"; "__dirname"; "program"; "askUserConfirmation" ].

(** The globals of Node that [index.js] mentions.  [readline] is a module
    of Node, not a global: a module has to import it to name it. *)
Definition node_globals : list string := [ "process"; "console"; "Promise" ].

Definition in_scope (ident : string) : bool :=
  existsb (String.eqb ident) (module_bindings ++ node_globals)%list.

(** Evaluating an identifier: a name that is bound nowhere throws. *)
Definition resolve {S} (ident : string) : M S unit :=
  if in_scope ident then ret tt else throw (ReferenceError ident).

(** [askUserConfirmation]: the promise it returns is settled by the
    answer, so the model returns the value the promise resolves to. *)
Definition askUserConfirmation {S} (question : string) : M S bool :=
  resolve "readline" ;;                       (* readline.createInterface *)
  answer <- read_answer question ;;           (* rl.question, rl.close *)
  ret (String.eqb (Str.toLowerCase answer) "y").

(* ================================================================= *)
(** ** The commands *)

Inductive command :=
| Express | React
| ReactComponent | ExpressModel | ExpressController | ExpressRoute
| ExpressMiddleware.

Definition command_name (c : command) : string :=
  match c with
  | Express => "express"
  | React => "react"
  | ReactComponent => "react-component"
  | ExpressModel => "express-model"
  | ExpressController => "express-controller"
  | ExpressRoute => "express-route"
  | ExpressMiddleware => "express-middleware"
  end.

Definition is_project_command (c : command) : bool :=
  match c with Express | React => true | _ => false end.

Section Actions.
Context {S : Type} {FS : FileSystem S} {WD : WorkingDirectory S}.

(** [if (cond) { body }] *)
Definition when (cond : bool) (body : M S unit) : M S unit :=
  if cond then body else ret tt.

Definition express_action (projectName : string) : M S unit :=
  call (
    here <- module_dirname ;;
    let templateDir := Path.join (Path.join here "templates") "express" in
    dir <- process_cwd ;;
    let destinationDir := Path.join dir projectName in
    console_log Blue ("Creating Express project: " ++ projectName) ;;
    try_catch
      ( fs_copySync templateDir destinationDir ;;
        console_log Green "Express project created successfully!" )
      (fun err => console_error Red "Error copying template files:" err)).

Definition react_action (projectName : string) : M S unit :=
  call (
    here <- module_dirname ;;
    let templateDir := Path.join (Path.join here "templates") "react" in
    dir <- process_cwd ;;
    let destinationDir := Path.join dir projectName in
    console_log Blue ("Creating React project: " ++ projectName) ;;
    try_catch
      ( fs_copySync templateDir destinationDir ;;
        console_log Green "React project created successfully!" )
      (fun err => console_error Red "Error copying template files:" err)).

Definition react_component_action (componentName : string) : M S unit :=
  call (
    dir <- process_cwd ;;
    let componentDir := Path.join (Path.join dir "src") "components" in
    let componentFile := Path.join componentDir (componentName ++ ".jsx") in
    console_log Blue ("Creating React component: " ++ componentName) ;;
    try_catch
      ( present <- fs_existsSync componentDir ;;
        when (negb present) (fs_mkdirSync componentDir) ;;
        fs_writeFileSync componentFile (Str.trim (componentTemplate componentName)) ;;
        console_log Green ("Component " ++ componentName ++ " created successfully!") )
      (fun err => console_error Red "Error creating component:" err)).

Definition express_model_action (modelName : string) : M S unit :=
  call (
    dir <- process_cwd ;;
    let modelDir := Path.join dir "models" in
    let modelFile := Path.join modelDir (modelName ++ ".js") in
    console_log Blue ("Creating MongoDB model: " ++ modelName) ;;
    try_catch
      ( present <- fs_existsSync modelDir ;;
        when (negb present) (fs_mkdirSync modelDir) ;;
        taken <- fs_existsSync modelFile ;;
        when taken
          ( console_log Red ("Model " ++ modelName ++ " already exists.") ;;
            return_ ) ;;
        fs_writeFileSync modelFile (Str.trim (modelTemplate modelName)) ;;
        console_log Green ("Model " ++ modelName ++ " created successfully!") )
      (fun err => console_error Red "Error creating model:" err)).

Definition express_controller_action (controllerName : string) : M S unit :=
  call (
    dir <- process_cwd ;;
    let controllerDir := Path.join dir "controllers" in
    let controllerFile := Path.join controllerDir (controllerName ++ ".js") in
    console_log Blue ("Creating MongoDB controller: " ++ controllerName) ;;
    try_catch
      ( present <- fs_existsSync controllerDir ;;
        when (negb present) (fs_mkdirSync controllerDir) ;;
        taken <- fs_existsSync controllerFile ;;
        when taken
          ( console_log Red ("Controller " ++ controllerName ++ " already exists.") ;;
            return_ ) ;;
        fs_writeFileSync controllerFile (Str.trim (controllerTemplate controllerName)) ;;
        console_log Green ("Controller " ++ controllerName ++ " created successfully!") )
      (fun err => console_error Red "Error creating controller:" err)).

Definition express_route_action (routeName : string) : M S unit :=
  call (
    dir <- process_cwd ;;
    let routeDir := Path.join dir "routes" in
    let routeFile := Path.join routeDir (routeName ++ ".js") in
    console_log Blue ("Creating route for: " ++ routeName) ;;
    try_catch
      ( present <- fs_existsSync routeDir ;;
        when (negb present) (fs_mkdirSync routeDir) ;;
        taken <- fs_existsSync routeFile ;;
        when taken
          ( console_log Red ("Route " ++ routeName ++ " already exists.") ;;
            return_ ) ;;
        fs_writeFileSync routeFile (Str.trim (routeTemplate routeName)) ;;
        console_log Green ("Route " ++ routeName ++ " created successfully!") )
      (fun err => console_error Red "Error creating route:" err)).

Definition express_middleware_action (fileName : string) : M S unit :=
  call (
    dir <- process_cwd ;;
    let middlewareDir := Path.join dir "middlewares" in
    let middlewareFile := Path.join middlewareDir (fileName ++ ".js") in
    console_log Blue ("Creating middleware file: " ++ fileName) ;;
    try_catch
      ( present <- fs_existsSync middlewareDir ;;
        when (negb present) (fs_mkdirSync middlewareDir) ;;
        taken <- fs_existsSync middlewareFile ;;
        when taken
          ( console_log Red ("Middleware " ++ fileName ++ " already exists.") ;;
            return_ ) ;;
        fs_writeFileSync middlewareFile (Str.trim (middlewareTemplate fileName)) ;;
        console_log Green ("Middleware " ++ fileName ++ " created successfully!") )
      (fun err => console_error Red "Error creating middleware file:" err)).

(** [program.parse] hands the positional argument to the action of the
    command named on the command line. *)
Definition action (c : command) (arg : string) : M S unit :=
  match c with
  | Express => express_action arg
  | React => react_action arg
  | ReactComponent => react_component_action arg
  | ExpressModel => express_model_action arg
  | ExpressController => express_controller_action arg
  | ExpressRoute => express_route_action arg
  | ExpressMiddleware => express_middleware_action arg
  end.

End Actions.

(** The exit status of the process: an exception no action caught ends
    the process with status 1, everything else with status 0. *)
Definition exit_status {A} (c : completion A) : nat :=
  match c with
  | Throw _ => 1
  | _ => 0
  end.

(* ================================================================= *)
(** ** A tree model of the file system

    Regular files and directories; a directory lists its entries in
    directory order.  No links, no permissions, no limit on the length of a
    name or of a path, no full disk: the calls fail here only for the shape
    of the tree (a missing parent, a file where a directory is needed and
    the reverse), and a call that succeeds here can still fail on a real
    file system for one of the other reasons.  Results that have to hold
    whatever makes a call fail are stated over [FileSystem], not over this
    model. *)

Inductive node :=
| File (content : string)
| Dir (entries : list (string * node)).

Module Tree.

Fixpoint assoc (s : string) (es : list (string * node)) : option node :=
  match es with
  | [] => None
  | (k, n) :: es' => if String.eqb s k then Some n else assoc s es'
  end.

(** Replaces the entry named [s], or adds it after the others. *)
Fixpoint put (s : string) (n : node) (es : list (string * node))
  : list (string * node) :=
  match es with
  | [] => [(s, n)]
  | (k, m) :: es' => if String.eqb s k then (k, n) :: es' else (k, m) :: put s n es'
  end.

Inductive stat_result :=
| Found (n : node)
| Missing            (* ENOENT *)
| NotADirectory.     (* ENOTDIR: a component of the path is a file *)

Fixpoint stat (p : path) (n : node) : stat_result :=
  match p with
  | [] => Found n
  | s :: p' =>
      match n with
      | File _ => NotADirectory
      | Dir es =>
          match assoc s es with
          | Some child => stat p' child
          | None => Missing
          end
      end
  end.

Definition exists_ (p : path) (n : node) : bool :=
  match stat p n with
  | Found _ => true
  | _ => false
  end.

Definition is_dir (n : node) : bool :=
  match n with Dir _ => true | File _ => false end.

(** [mkdir -p]: the directories missing along [p] are created; a file on
    the way, or at [p], is an error. *)
Fixpoint mkdirp (p : path) (n : node) : node + errno :=
  match n, p with
  | File _, [] => inr EEXIST
  | File _, _ :: _ => inr ENOTDIR
  | Dir _, [] => inl n
  | Dir es, s :: p' =>
      match mkdirp p' (match assoc s es with Some child => child | None => Dir [] end) with
      | inl child' => inl (Dir (put s child' es))
      | inr e => inr e
      end
  end.

(** Writing a file: the parent has to be there, and the target must not be
    a directory; an existing file is replaced. *)
Fixpoint write (p : path) (c : string) (n : node) : node + errno :=
  match p, n with
  | [], File _ => inl (File c)
  | [], Dir _ => inr EISDIR
  | _ :: _, File _ => inr ENOTDIR
  | s :: p', Dir es =>
      match assoc s es with
      | Some child =>
          match write p' c child with
          | inl child' => inl (Dir (put s child' es))
          | inr e => inr e
          end
      | None =>
          match p' with
          | [] => inl (Dir (put s (File c) es))
          | _ :: _ => inr ENOENT
          end
      end
  end.

(** What a recursive copy leaves at its destination: the finished copy,
    or what was there when it stopped and the error that stopped it.  The
    errors of the library itself carry its messages, without the paths. *)
Inductive copied :=
| Done (result : node)
| Stopped (remains : node) (e : error).

Definition overwrite_dir : error :=
  LibraryError "Cannot overwrite directory with non-directory".
Definition overwrite_non_dir : error :=
  LibraryError "Cannot overwrite non-directory with directory".
Definition same_path : error :=
  LibraryError "Source and destination must not be the same.".
Definition into_itself : error :=
  LibraryError "Cannot copy to a subdirectory of itself".

(** The entries [es] of a source directory are copied one after the
    other, in directory order, into a directory that holds [ds]; the first
    entry that cannot be copied stops the copy where it is. *)
Definition copy_entries (copy : node -> option node -> copied)
  : list (string * node) -> list (string * node) -> copied :=
  fix go (es ds : list (string * node)) : copied :=
    match es with
    | [] => Done (Dir ds)
    | (s, child) :: es' =>
        match copy child (assoc s ds) with
        | Done child' => go es' (put s child' ds)
        | Stopped remains e => Stopped (Dir (put s remains ds)) e
        end
    end.

(** [copySync] below its entry point, with the defaults [index.js] leaves
    in place ([overwrite: true]): a file replaces a file, a directory is
    made if it is missing and filled entry by entry, and a file never
    replaces a directory, nor a directory a file. *)
Fixpoint copy_node (src : node) (dest : option node) : copied :=
  match src, dest with
  | File c, None => Done (File c)
  | File c, Some (File _) => Done (File c)
  | File _, Some (Dir ds) => Stopped (Dir ds) overwrite_dir
  | Dir _, Some (File d) => Stopped (File d) overwrite_non_dir
  | Dir es, Some (Dir ds) => copy_entries copy_node es ds
  | Dir es, None => copy_entries copy_node es []
  end.

(** Sets the node at [p]; the parent of [p] is a directory of the tree. *)
Fixpoint graft (p : path) (new : node) (n : node) : node :=
  match p with
  | [] => new
  | s :: p' =>
      match n with
      | File _ => n
      | Dir es =>
          match assoc s es, p' with
          | Some child, _ => Dir (put s (graft p' new child) es)
          | None, [] => Dir (put s new es)
          | None, _ :: _ => n
          end
      end
  end.

(** The checks [copySync] makes on the two paths before it touches
    anything. *)
Definition check_paths (src dest : path) (s : node) (d : option node)
  : option error :=
  match d with
  | Some d' =>
      if Path.eqb src dest then Some same_path
      else if is_dir s && negb (is_dir d') then Some overwrite_non_dir
      else if negb (is_dir s) && is_dir d' then Some overwrite_dir
      else if is_dir s && Path.is_prefix src dest then Some into_itself
      else None
  | None =>
      if is_dir s && Path.is_prefix src dest then Some into_itself else None
  end.

(** [fs.copySync(src, dest)] of fs-extra, in the order of its version 8
    and later: the two paths are examined, then the parent of the
    destination is made if it is missing, then the copy starts.  The source
    is read as it is when the call starts, so a destination that contains
    the source is outside what this model describes. *)
Definition copy (src dest : path) (root : node) : node * option error :=
  match stat src root with
  | Missing => (root, Some (SystemError ENOENT "lstat" src))
  | NotADirectory => (root, Some (SystemError ENOTDIR "lstat" src))
  | Found s =>
      match stat dest root with
      | NotADirectory => (root, Some (SystemError ENOTDIR "lstat" dest))
      | dstat =>
          let d := match dstat with Found d' => Some d' | _ => None end in
          match check_paths src dest s d with
          | Some e => (root, Some e)
          | None =>
              let parent := Path.dirname dest in
              match (if exists_ parent root then inl root else mkdirp parent root) with
              | inr code => (root, Some (SystemError code "mkdir" parent))
              | inl root1 =>
                  match copy_node s d with
                  | Done result => (graft dest result root1, None)
                  | Stopped remains e => (graft dest remains root1, Some e)
                  end
              end
          end
      end
  end.


(** The names of [es] are pairwise different and every child is [wf]. *)
Definition wf_entries (wf : node -> bool) : list (string * node) -> bool :=
  fix go (es : list (string * node)) : bool :=
    match es with
    | [] => true
    | (s, child) :: es' =>
        match assoc s es' with
        | Some _ => false
        | None => wf child && go es'
        end
    end.

(** No directory of the tree lists a name twice. *)
Fixpoint wf (n : node) : bool :=
  match n with
  | File _ => true
  | Dir es => wf_entries wf es
  end.

End Tree.

(** What a copy leaves, finished or not, is well-formed. *)
Definition wf_copied (r : Tree.copied) : bool :=
  match r with
  | Tree.Done result => Tree.wf result
  | Tree.Stopped remains _ => Tree.wf remains
  end.

#[global] Instance tree_fs : FileSystem node := {
  existsSync := Tree.exists_;
  mkdirSync p root :=
    match Tree.mkdirp p root with
    | inl root' => (root', None)
    | inr code => (root, Some (SystemError code "mkdir" p))
    end;
  writeFileSync p content root :=
    match Tree.write p content root with
    | inl root' => (root', None)
    | inr code => (root, Some (SystemError code "open" p))
    end;
  copySync := Tree.copy }.

(** The state a run starts from: nothing has happened yet. *)
Definition start {S} (dir here : path) (input : list string) (s : S) : process S :=
  mkProcess dir here input s [].

(** One run of the tool, in a working directory that is there. *)
Definition run {S} {FS : FileSystem S} (c : command) (arg : string)
  (dir here : path) (s : S) : completion unit * process S :=
  action c arg (start dir here [] s).

(* ================================================================= *)
(** ** The commands at a glance

    What each command reads, writes and prints, collected from the seven
    actions so that the properties can be stated for all of them at once. *)

(** The commands that look for the destination file before writing it. *)
Definition is_guarded (c : command) : bool :=
  match c with
  | ExpressModel | ExpressController | ExpressRoute | ExpressMiddleware => true
  | _ => false
  end.

Definition is_file_command (c : command) : bool := negb (is_project_command c).

(** The bundled template of a project command. *)
Definition template_dir (c : command) (here : path) : path :=
  match c with
  | React => Path.join (Path.join here "templates") "react"
  | _ => Path.join (Path.join here "templates") "express"
  end.

(** The directory a file command writes into. *)
Definition target_dir (c : command) (dir : path) : path :=
  match c with
  | ReactComponent => Path.join (Path.join dir "src") "components"
  | ExpressModel => Path.join dir "models"
  | ExpressController => Path.join dir "controllers"
  | ExpressRoute => Path.join dir "routes"
  | ExpressMiddleware => Path.join dir "middlewares"
  | Express | React => dir
  end.

Definition extension (c : command) : string :=
  match c with
  | ReactComponent => ".jsx"
  | Express | React => ""
  | _ => ".js"
  end.

(** The path a command creates. *)
Definition destination (c : command) (arg : string) (dir : path) : path :=
  Path.join (target_dir c dir) (arg ++ extension c).

(** The text a file command writes. *)
Definition generated (c : command) (arg : string) : string :=
  match c with
  | ReactComponent => Str.trim (componentTemplate arg)
  | ExpressModel => Str.trim (modelTemplate arg)
  | ExpressController => Str.trim (controllerTemplate arg)
  | ExpressRoute => Str.trim (routeTemplate arg)
  | ExpressMiddleware => Str.trim (middlewareTemplate arg)
  | Express | React => ""
  end.

(** The line every command opens with. *)
Definition announcement (c : command) (arg : string) : event :=
  Log Blue
    (match c with
     | Express => "Creating Express project: " ++ arg
     | React => "Creating React project: " ++ arg
     | ReactComponent => "Creating React component: " ++ arg
     | ExpressModel => "Creating MongoDB model: " ++ arg
     | ExpressController => "Creating MongoDB controller: " ++ arg
     | ExpressRoute => "Creating route for: " ++ arg
     | ExpressMiddleware => "Creating middleware file: " ++ arg
     end).

(** The line that reports success. *)
Definition success (c : command) (arg : string) : event :=
  Log Green
    (match c with
     | Express => "Express project created successfully!"
     | React => "React project created successfully!"
     | ReactComponent => "Component " ++ arg ++ " created successfully!"
     | ExpressModel => "Model " ++ arg ++ " created successfully!"
     | ExpressController => "Controller " ++ arg ++ " created successfully!"
     | ExpressRoute => "Route " ++ arg ++ " created successfully!"
     | ExpressMiddleware => "Middleware " ++ arg ++ " created successfully!"
     end).

(** The line of a guarded command that finds its destination taken. *)
Definition already_exists (c : command) (arg : string) : event :=
  Log Red
    (match c with
     | ExpressModel => "Model " ++ arg ++ " already exists."
     | ExpressController => "Controller " ++ arg ++ " already exists."
     | ExpressRoute => "Route " ++ arg ++ " already exists."
     | ExpressMiddleware => "Middleware " ++ arg ++ " already exists."
     | _ => ""
     end).

(** The line of the [catch] clause. *)
Definition failure (c : command) (err : error) : event :=
  LogError Red
    (match c with
     | Express | React => "Error copying template files:"
     | ReactComponent => "Error creating component:"
     | ExpressModel => "Error creating model:"
     | ExpressController => "Error creating controller:"
     | ExpressRoute => "Error creating route:"
     | ExpressMiddleware => "Error creating middleware file:"
     end) err.

Definition is_write (e : event) : bool :=
  match e with CallWrite _ _ => true | _ => false end.

Definition is_question (e : event) : bool :=
  match e with Question _ => true | _ => false end.

(** The directory at [p], if there is one. *)
Definition dir_at (p : path) (root : node) : bool :=
  match Tree.stat p root with
  | Tree.Found (Dir _) => true
  | _ => false
  end.

(** Lines joined by line breaks. *)
Definition text (lines : list string) : string := String.concat Str.nl lines.

(** The first character of [s] is not white space. *)
Definition starts_solid (s : string) : Prop :=
  exists c r, s = String c r /\ Str.is_space c = false.

(** The last character of [s] is not white space. *)
Definition ends_solid (s : string) : Prop :=
  exists r c, s = r ++ String c "" /\ Str.is_space c = false.

(** The shape the four guarded actions share: [d] is the directory, [f]
    the destination file and [content] the text to write. *)
Definition guarded_flow {S} {FS : FileSystem S} (c : command) (arg : string)
  (d f : path) (content : string) : M S unit :=
  call (
    emit (announcement c arg) ;;
    try_catch
      ( present <- fs_existsSync d ;;
        when (negb present) (fs_mkdirSync d) ;;
        taken <- fs_existsSync f ;;
        when taken (emit (already_exists c arg) ;; return_) ;;
        fs_writeFileSync f content ;;
        emit (success c arg) )
      (fun err => emit (failure c err))).

(** The shape of the [react-component] action, in the same terms. *)
Definition plain_flow {S} {FS : FileSystem S} (c : command) (arg : string)
  (d f : path) (content : string) : M S unit :=
  call (
    emit (announcement c arg) ;;
    try_catch
      ( present <- fs_existsSync d ;;
        when (negb present) (fs_mkdirSync d) ;;
        fs_writeFileSync f content ;;
        emit (success c arg) )
      (fun err => emit (failure c err))).

(** The same command run a second time on what the first run left. *)
Definition run_again {S} {FS : FileSystem S} (c : command) (arg : string)
  (dir here : path) (s : S) : completion unit * process S :=
  run c arg dir here (fs (snd (run c arg dir here s))).

(** ** Sample trees

    A project directory [/home/proj] and the tool installed in
    [/opt/mern] with its Express template. *)

Definition express_template : node :=
  Dir [ ("index.js", File "const express = require('express');");
        ("routes", Dir [ ("index.js", File "// routes") ]) ].

Definition installed : string * node :=
  ("opt", Dir [ ("mern", Dir [ ("templates", Dir [ ("express", express_template) ]) ]) ]).

Definition project_dir : path := ["home"; "proj"].
Definition install_dir : path := ["opt"; "mern"].

(** The project directory is empty. *)
Definition empty_project : node :=
  Dir [ ("home", Dir [ ("proj", Dir []) ]); installed ].

(** The project has a component [Header.jsx] that was edited by hand. *)
Definition edited_project : node :=
  Dir [ ("home",
         Dir [ ("proj",
                Dir [ ("src",
                       Dir [ ("components",
                              Dir [ ("Header.jsx", File "// edited by hand") ]) ]) ]) ]);
        installed ].

(** The project directory already holds a directory [app] with a file of
    the user's. *)
Definition project_with_app : node :=
  Dir [ ("home",
         Dir [ ("proj", Dir [ ("app", Dir [ ("notes.txt", File "mine") ]) ]) ]);
        installed ].

(** The project directory holds [app], where [routes] is a regular file. *)
Definition project_with_clash : node :=
  Dir [ ("home",
         Dir [ ("proj", Dir [ ("app", Dir [ ("routes", File "mine") ]) ]) ]);
        installed ].

(** The project has a directory [routes/Item.js]. *)
Definition taken_project : node :=
  Dir [ ("home",
         Dir [ ("proj", Dir [ ("routes", Dir [ ("Item.js", Dir []) ]) ]) ]);
        installed ].


(** The lines written to the console. *)
Definition is_console (e : event) : bool :=
  match e with
  | Log _ _ | LogError _ _ _ => true
  | _ => false
  end.

(** On the tree, the working directory is there when its path leads to
    a directory; otherwise the system call fails as for a directory that
    was removed. *)
Definition tree_cwd : WorkingDirectory node := {|
  uv_cwd := fun p root =>
    if dir_at p root then None else Some (SystemError ENOENT "uv_cwd" p) |}.

(** The exceptions that come from outside the program: the errors of the
    system call behind [process.cwd()] and of the three calls into [fs]
    that can throw. *)
Definition raised_by_environment {S} {FS : FileSystem S}
  {WD : WorkingDirectory S} (e : error) : Prop :=
  (exists p s, uv_cwd p s = Some e)
  \/ (exists p s, snd (mkdirSync p s) = Some e)
  \/ (exists p x s, snd (writeFileSync p x s) = Some e)
  \/ (exists a b s, snd (copySync a b s) = Some e).

(* ================================================================= *)
(** * Properties *)

(** ** Strings and the template literals *)

Lemma append_assoc (a b c : string) : (a ++ b) ++ c = a ++ b ++ c.
Proof. induction a as [|x a IH]; simpl; [reflexivity | now rewrite IH]. Qed.

Lemma append_empty_inv (a b : string) : a ++ b = "" -> b = "".
Proof. destruct a; simpl; [auto | discriminate]. Qed.

Lemma trim_end_app (s t : string) :
  Str.trim_end t <> "" -> Str.trim_end (s ++ t) = s ++ Str.trim_end t.
Proof.
  intros Ht. induction s as [|c s IH]; simpl; [reflexivity|].
  rewrite IH. destruct (s ++ Str.trim_end t) eqn:E; [|reflexivity].
  apply append_empty_inv in E. contradiction.
Qed.

Lemma trim_end_line (l : string) :
  ends_solid l -> Str.trim_end (l ++ Str.nl) = l.
Proof.
  intros (r & c & -> & Hc). rewrite append_assoc.
  rewrite trim_end_app; simpl; rewrite Hc; [reflexivity | discriminate].
Qed.

Lemma ends_solid_nonempty (l : string) : ends_solid l -> l <> "".
Proof.
  intros (r & c & -> & _) E. apply append_empty_inv in E. discriminate.
Qed.

Lemma text_cons (l : string) (ls : list string) :
  ls <> [] -> text (l :: ls) = l ++ Str.nl ++ text ls.
Proof. destruct ls; [congruence | reflexivity]. Qed.

Lemma text_nonempty (mid : list string) (last : string) :
  ends_solid last -> text (mid ++ [last]) <> "".
Proof.
  intros H. destruct mid as [|l mid]; simpl.
  - now apply ends_solid_nonempty.
  - rewrite text_cons by (destruct mid; discriminate).
    intros E. apply append_empty_inv in E. discriminate.
Qed.

Lemma trim_end_nl (t : string) :
  Str.trim_end t <> "" -> Str.trim_end (Str.nl ++ t) = Str.nl ++ Str.trim_end t.
Proof. apply trim_end_app. Qed.

Lemma trim_end_lines (mid : list string) (last : string) :
  ends_solid last ->
  Str.trim_end (fold_right (fun line rest => line ++ Str.nl ++ rest) "" (mid ++ [last]))
  = text (mid ++ [last]).
Proof.
  intros H. induction mid as [|l mid IH].
  - change (Str.trim_end (last ++ Str.nl) = last). now apply trim_end_line.
  - change ((l :: mid) ++ [last])%list with (l :: (mid ++ [last]))%list.
    rewrite text_cons by (destruct mid; discriminate).
    assert (N := text_nonempty mid H). rewrite <- IH in N |- *.
    set (rest := fold_right _ _ _) in *.
    change (Str.trim_end (l ++ Str.nl ++ rest) = l ++ Str.nl ++ Str.trim_end rest).
    rewrite <- trim_end_nl by assumption.
    apply trim_end_app. rewrite trim_end_nl by assumption.
    intros E. apply append_empty_inv in E. contradiction.
Qed.

(** [trim] takes from a template literal the line break it opens with
    and the one it closes with, and nothing else, when the first line
    starts and the last line ends with something other than white space. *)
Lemma trim_literal (first : string) (mid : list string) (last : string) :
  starts_solid first -> ends_solid last ->
  Str.trim (literal (first :: mid ++ [last])) = text (first :: mid ++ [last]).
Proof.
  intros (c & r & -> & Hc) Hl. unfold Str.trim, literal.
  rewrite text_cons by (destruct mid; discriminate).
  assert (N := text_nonempty mid Hl).
  rewrite <- (trim_end_lines mid Hl) in N |- *.
  set (rest := fold_right _ _ (mid ++ [last])%list) in *.
  change (Str.trim_end (Str.trim_start (String c r ++ Str.nl ++ rest))
          = String c r ++ Str.nl ++ Str.trim_end rest).
  change (Str.trim_start (String c r ++ Str.nl ++ rest))
    with (if Str.is_space c then Str.trim_start (r ++ Str.nl ++ rest)
          else String c r ++ Str.nl ++ rest).
  rewrite Hc. rewrite <- trim_end_nl by assumption.
  apply trim_end_app. rewrite trim_end_nl by assumption.
  intros E. apply append_empty_inv in E. contradiction.
Qed.

Ltac solid :=
  match goal with
  | |- starts_solid _ => eexists; eexists; split; reflexivity
  | |- ends_solid (_ ++ ?n ++ ?t) =>
      exists ("export default " ++ n), ";"%char; split; reflexivity
  | |- ends_solid _ => eexists; exists ";"%char; split; reflexivity
  end.

Lemma trim_componentTemplate (n : string) :
  Str.trim (componentTemplate n) =
  text [ "import React from 'react';"; "";
         "const " ++ n ++ " = () => {";
         "  return (";
         "    <div>";
         "      <h1>" ++ n ++ "</h1>";
         "    </div>";
         "  );";
         "};";
         "export default " ++ n ++ ";" ].
Proof.
  unfold componentTemplate.
  apply (trim_literal (first := "import React from 'react';")
           [ ""; "const " ++ n ++ " = () => {"; "  return ("; "    <div>";
             "      <h1>" ++ n ++ "</h1>"; "    </div>"; "  );"; "};" ]);
    solid.
Qed.

Lemma trim_modelTemplate (n : string) :
  Str.trim (modelTemplate n) =
  text [ "import mongoose from 'mongoose';"; "";
         "const " ++ n ++ "Schema = new mongoose.Schema({";
         "  // Define your schema here";
         "  name: { type: String, required: true },";
         "  createdAt: { type: Date, default: Date.now },";
         "});"; "";
         "const " ++ n ++ " = mongoose.model('" ++ n ++ "', " ++ n ++ "Schema);";
         "";
         "export default " ++ n ++ ";" ].
Proof.
  unfold modelTemplate.
  apply (trim_literal (first := "import mongoose from 'mongoose';")
           [ ""; "const " ++ n ++ "Schema = new mongoose.Schema({";
             "  // Define your schema here";
             "  name: { type: String, required: true },";
             "  createdAt: { type: Date, default: Date.now },";
             "});"; "";
             "const " ++ n ++ " = mongoose.model('" ++ n ++ "', " ++ n ++ "Schema);";
             "" ]);
    solid.
Qed.

Lemma trim_controllerTemplate (n : string) :
  Str.trim (controllerTemplate n) = "//Your Code here".
Proof. reflexivity. Qed.

Lemma trim_routeTemplate (n : string) :
  Str.trim (routeTemplate n) =
  text [ "import express from 'express';";
         "import { getAll" ++ n ++ "s, create" ++ n
           ++ " } from '../controllers/" ++ n ++ ".js';";
         "";
         "const router = express.Router();";
         "";
         "router.get('/', getAll" ++ n ++ "s);";
         "router.post('/', create" ++ n ++ ");";
         "";
         "export default router;" ].
Proof.
  unfold routeTemplate.
  apply (trim_literal (first := "import express from 'express';")
           [ "import { getAll" ++ n ++ "s, create" ++ n
               ++ " } from '../controllers/" ++ n ++ ".js';";
             ""; "const router = express.Router();"; "";
             "router.get('/', getAll" ++ n ++ "s);";
             "router.post('/', create" ++ n ++ ");"; "" ]).
  - solid.
  - exists "export default router", ";"%char. split; reflexivity.
Qed.

Lemma trim_middlewareTemplate (n : string) :
  Str.trim (middlewareTemplate n) =
  text [ "// Middleware boilerplate for " ++ n;
         "";
         "const " ++ n ++ " = (req, res, next) => {";
         "  // Your middleware logic here";
         "  console.log('" ++ n ++ " middleware triggered');";
         "  next();";
         "};";
         "";
         "export default " ++ n ++ ";" ].
Proof.
  unfold middlewareTemplate.
  apply (trim_literal (first := "// Middleware boilerplate for " ++ n)
           [ ""; "const " ++ n ++ " = (req, res, next) => {";
             "  // Your middleware logic here";
             "  console.log('" ++ n ++ " middleware triggered');";
             "  next();"; "};"; "" ]);
    solid.
Qed.

(** ** The tree model *)

Lemma assoc_put_same (s : string) (n : node) (es : list (string * node)) :
  Tree.assoc s (Tree.put s n es) = Some n.
Proof.
  induction es as [|[k m] es IH]; simpl.
  - now rewrite String.eqb_refl.
  - destruct (String.eqb s k) eqn:E; simpl; rewrite E; auto.
Qed.

Lemma assoc_put_other (s k : string) (n : node) (es : list (string * node)) :
  k <> s -> Tree.assoc k (Tree.put s n es) = Tree.assoc k es.
Proof.
  intros Hk. apply String.eqb_neq in Hk.
  induction es as [|[j m] es IH]; simpl.
  - now rewrite Hk.
  - destruct (String.eqb s j) eqn:E; simpl.
    + apply String.eqb_eq in E. subst j. now rewrite Hk.
    + now rewrite IH.
Qed.

Lemma stat_app (p q : path) (n : node) :
  Tree.stat (p ++ q)%list n =
  match Tree.stat p n with
  | Tree.Found x => Tree.stat q x
  | r => r
  end.
Proof.
  revert n. induction p as [|s p IH]; intros n; simpl; [reflexivity|].
  destruct n as [c|es]; [reflexivity|].
  destruct (Tree.assoc s es); [apply IH | reflexivity].
Qed.

Lemma is_prefix_app (q p : path) :
  Path.is_prefix q p = true -> exists r, p = (q ++ r)%list.
Proof.
  revert p. induction q as [|a q IH]; intros p H.
  - now exists p.
  - destruct p as [|b p]; simpl in H; [discriminate|].
    apply andb_prop in H as [E H]. apply String.eqb_eq in E. subst b.
    destruct (IH _ H) as [r ->]. now exists r.
Qed.

(** Every directory on the way to a directory is a directory. *)
Lemma dir_at_prefix (q p : path) (n : node) :
  dir_at p n = true -> Path.is_prefix q p = true -> dir_at q n = true.
Proof.
  intros Hp Hq. apply is_prefix_app in Hq as [r ->].
  unfold dir_at in *. rewrite stat_app in Hp.
  destruct (Tree.stat q n) as [x| |]; try discriminate.
  destruct x as [c|es]; [|reflexivity].
  destruct r; simpl in Hp; discriminate.
Qed.

Lemma dir_at_exists (p : path) (n : node) :
  dir_at p n = true -> Tree.exists_ p n = true.
Proof.
  unfold dir_at, Tree.exists_. now destruct (Tree.stat p n).
Qed.

Lemma mkdirp_dir_at (p : path) (n n' : node) :
  Tree.mkdirp p n = inl n' -> dir_at p n' = true.
Proof.
  revert n n'. induction p as [|s p IH]; intros [c|es] n' H; simpl in H;
    try discriminate.
  - now inversion H.
  - destruct (Tree.mkdirp p _) as [child'|e] eqn:E; inversion H; subst n'.
    unfold dir_at. simpl. rewrite assoc_put_same. now apply (IH _ _ E).
Qed.

Lemma write_stat (p : path) (c : string) (n n' : node) :
  Tree.write p c n = inl n' -> Tree.stat p n' = Tree.Found (File c).
Proof.
  revert n n'. induction p as [|s p IH]; intros [d|es] n' H; simpl in H;
    try discriminate.
  - now inversion H.
  - destruct (Tree.assoc s es) as [child|] eqn:A.
    + destruct (Tree.write p c child) as [child'|e] eqn:E; inversion H; subst n'.
      simpl. rewrite assoc_put_same. now apply (IH _ _ E).
    + destruct p; inversion H; subst n'. simpl. now rewrite assoc_put_same.
Qed.

(** Writing a file removes nothing and turns no directory into a file. *)
Lemma write_keeps (f : path) (c : string) (n n' : node) :
  Tree.write f c n = inl n' ->
  forall q x, Tree.stat q n = Tree.Found x ->
  exists x', Tree.stat q n' = Tree.Found x' /\ Tree.is_dir x' = Tree.is_dir x.
Proof.
  revert n n'. induction f as [|s f IH]; intros [d|es] n' H q x Hq; simpl in H;
    try discriminate.
  - inversion H; subst n'. destruct q; simpl in Hq; [|discriminate].
    inversion Hq; subst x. now exists (File c).
  - destruct q as [|k q].
    + simpl in Hq. inversion Hq; subst x.
      destruct (Tree.assoc s es) as [child|].
      * destruct (Tree.write f c child); inversion H. eexists; split; reflexivity.
      * destruct f; inversion H. eexists; split; reflexivity.
    + simpl in Hq. destruct (String.eqb k s) eqn:K.
      * apply String.eqb_eq in K. subst k.
        destruct (Tree.assoc s es) as [child|] eqn:A; [|discriminate].
        destruct (Tree.write f c child) as [child'|e] eqn:E; inversion H; subst n'.
        simpl. rewrite assoc_put_same. now apply (IH _ _ E).
      * apply String.eqb_neq in K.
        assert (Tree.assoc k (Tree.put s
                  match Tree.assoc s es with
                  | Some child => match Tree.write f c child with
                                  | inl child' => child' | inr _ => File c end
                  | None => File c
                  end es) = Tree.assoc k es) as P by now apply assoc_put_other.
        destruct (Tree.assoc s es) as [child|].
        -- destruct (Tree.write f c child) as [child'|e]; inversion H; subst n'.
           simpl. rewrite P. now exists x.
        -- destruct f; inversion H; subst n'. simpl. rewrite P. now exists x.
Qed.

Lemma write_exists (f : path) (c : string) (n n' : node) (q : path) :
  Tree.write f c n = inl n' ->
  Tree.exists_ q n = true -> Tree.exists_ q n' = true.
Proof.
  intros H. unfold Tree.exists_.
  destruct (Tree.stat q n) as [x| |] eqn:Q; try discriminate. intros _.
  destruct (write_keeps _ _ _ H _ Q) as (x' & -> & _). reflexivity.
Qed.

Lemma write_dir_at (f : path) (c : string) (n n' : node) (q : path) :
  Tree.write f c n = inl n' -> dir_at q n = true -> dir_at q n' = true.
Proof.
  intros H. unfold dir_at.
  destruct (Tree.stat q n) as [x| |] eqn:Q; try discriminate.
  destruct (write_keeps _ _ _ H _ Q) as (x' & -> & K).
  destruct x, x'; simpl in K; congruence.
Qed.

(** ** The guarded commands *)

Lemma action_guarded {S} {FS : FileSystem S} (c : command) (arg : string)
  (w : process S) :
  is_guarded c = true ->
  action c arg w =
  guarded_flow c arg (target_dir c (cwd w)) (destination c arg (cwd w))
    (generated c arg) w.
Proof. destruct c; intros H; try discriminate H; reflexivity. Qed.

Ltac unfold_flow :=
  cbv beta iota zeta delta
    [guarded_flow plain_flow call bind try_catch when fs_existsSync fs_mkdirSync
     fs_writeFileSync fs_copySync effect emit console_log console_error
     return_ throw process_cwd uv_cwd cwd_there module_dirname ret start
     existsSync mkdirSync writeFileSync copySync tree_fs
     cwd dirname stdin fs trace fst snd negb app].

Ltac absurd_event H :=
  simpl in H; unfold success, announcement, already_exists, failure in H;
  intuition discriminate.

Section Guarded.
Variables (c : command) (arg : string) (d f : path) (content : string).
Variables (dir here : path) (input : list string).

Local Notation "'once' root" :=
  (guarded_flow c arg d f content (start dir here input root))
  (at level 10, root at level 9, only parsing).

(** A guarded run ends normally. *)
Lemma guarded_normal (root : node) : fst (once root) = Normal tt.
Proof.
  unfold_flow.
  destruct (Tree.exists_ d root); simpl.
  - destruct (Tree.exists_ f root); simpl; [reflexivity|].
    destruct (Tree.write f content root); reflexivity.
  - destruct (Tree.mkdirp d root) as [root1|e]; simpl; [|reflexivity].
    destruct (Tree.exists_ f root1); simpl; [reflexivity|].
    destruct (Tree.write f content root1); reflexivity.
Qed.

(** A guarded run that reports success has written the file, and the
    directory it asked for is there. *)
Lemma guarded_created (root : node) :
  In (success c arg) (trace (snd (once root))) ->
  Tree.stat f (fs (snd (once root))) = Tree.Found (File content)
  /\ Tree.exists_ d (fs (snd (once root))) = true
  /\ (Tree.exists_ d root = false -> dir_at d (fs (snd (once root))) = true).
Proof.
  unfold_flow.
  destruct (Tree.exists_ d root) eqn:E1; simpl.
  - destruct (Tree.exists_ f root) eqn:E3; simpl; [intros H; absurd_event H|].
    destruct (Tree.write f content root) as [root2|e] eqn:E4; simpl;
      [|intros H; absurd_event H].
    intros _. split; [now apply (write_stat _ _ _ E4)|].
    split; [now apply (write_exists _ _ _ d E4)|discriminate].
  - destruct (Tree.mkdirp d root) as [root1|e] eqn:E2; simpl;
      [|intros H; absurd_event H].
    destruct (Tree.exists_ f root1) eqn:E3; simpl; [intros H; absurd_event H|].
    destruct (Tree.write f content root1) as [root2|e] eqn:E4; simpl;
      [|intros H; absurd_event H].
    intros _. assert (D := write_dir_at _ _ _ d E4 (mkdirp_dir_at _ _ E2)).
    split; [now apply (write_stat _ _ _ E4)|].
    split; [now apply dir_at_exists | trivial].
Qed.

(** When the directory is missing, it is asked for before anything is
    written. *)
Lemma guarded_mkdir_first (root : node) :
  Tree.exists_ d root = false ->
  exists rest,
    trace (snd (once root)) =
    announcement c arg :: CallExists d false :: CallMkdir d :: rest.
Proof.
  intros E1. unfold_flow. rewrite E1; simpl.
  destruct (Tree.mkdirp d root) as [root1|e]; simpl; [|eexists; reflexivity].
  destruct (Tree.exists_ f root1); simpl; [eexists; reflexivity|].
  destruct (Tree.write f content root1); simpl; eexists; reflexivity.
Qed.

(** A guarded run that finds both the directory and the file reports
    that the file exists, and calls nothing that changes the tree. *)
Lemma guarded_taken (root : node) :
  Tree.exists_ d root = true -> Tree.exists_ f root = true ->
  once root =
  (Normal tt,
   mkProcess dir here input root
     [announcement c arg; CallExists d true; CallExists f true;
      already_exists c arg]).
Proof.
  intros E1 E3. unfold_flow. rewrite E1; simpl. rewrite E3.
  reflexivity.
Qed.

(** Whatever the first run did, a second one changes nothing. *)
Lemma guarded_idempotent (root : node) :
  fs (snd (once (fs (snd (once root))))) = fs (snd (once root)).
Proof.
  unfold_flow.
  destruct (Tree.exists_ d root) eqn:E1; simpl.
  - destruct (Tree.exists_ f root) eqn:E3; simpl.
    + rewrite E1; simpl. now rewrite E3.
    + destruct (Tree.write f content root) as [root2|e] eqn:E4; simpl.
      * rewrite (write_exists _ _ _ d E4 E1); simpl.
        unfold Tree.exists_ at 1. now rewrite (write_stat _ _ _ E4).
      * rewrite E1; simpl. rewrite E3; simpl. now rewrite E4.
  - destruct (Tree.mkdirp d root) as [root1|e] eqn:E2; simpl.
    + assert (D := mkdirp_dir_at _ _ E2).
      destruct (Tree.exists_ f root1) eqn:E3; simpl.
      * rewrite (dir_at_exists _ _ D); simpl. now rewrite E3.
      * destruct (Tree.write f content root1) as [root2|e] eqn:E4; simpl.
        -- rewrite (dir_at_exists _ _ (write_dir_at _ _ _ d E4 D)); simpl.
           unfold Tree.exists_ at 1. now rewrite (write_stat _ _ _ E4).
        -- rewrite (dir_at_exists _ _ D); simpl. rewrite E3; simpl.
           now rewrite E4.
    + rewrite E1; simpl. now rewrite E2.
Qed.

End Guarded.

(** ** The [react-component] command *)

Lemma action_plain {S} {FS : FileSystem S} (arg : string) (w : process S) :
  action ReactComponent arg w =
  plain_flow ReactComponent arg (target_dir ReactComponent (cwd w))
    (destination ReactComponent arg (cwd w)) (generated ReactComponent arg) w.
Proof. reflexivity. Qed.

Section Plain.
Variables (c : command) (arg : string) (d f : path) (content : string).
Variables (dir here : path) (input : list string).

Local Notation "'once_plain' root" :=
  (plain_flow c arg d f content (start dir here input root))
  (at level 10, root at level 9, only parsing).

Lemma plain_created (root : node) :
  In (success c arg) (trace (snd (once_plain root))) ->
  Tree.stat f (fs (snd (once_plain root))) = Tree.Found (File content)
  /\ Tree.exists_ d (fs (snd (once_plain root))) = true
  /\ (Tree.exists_ d root = false -> dir_at d (fs (snd (once_plain root))) = true).
Proof.
  unfold_flow.
  destruct (Tree.exists_ d root) eqn:E1; simpl.
  - destruct (Tree.write f content root) as [root2|e] eqn:E4; simpl;
      [|intros H; absurd_event H].
    intros _. split; [now apply (write_stat _ _ _ E4)|].
    split; [now apply (write_exists _ _ _ d E4)|discriminate].
  - destruct (Tree.mkdirp d root) as [root1|e] eqn:E2; simpl;
      [|intros H; absurd_event H].
    destruct (Tree.write f content root1) as [root2|e] eqn:E4; simpl;
      [|intros H; absurd_event H].
    intros _. assert (D := write_dir_at _ _ _ d E4 (mkdirp_dir_at _ _ E2)).
    split; [now apply (write_stat _ _ _ E4)|].
    split; [now apply dir_at_exists | trivial].
Qed.

Lemma plain_mkdir_first (root : node) :
  Tree.exists_ d root = false ->
  exists rest,
    trace (snd (once_plain root)) =
    announcement c arg :: CallExists d false :: CallMkdir d :: rest.
Proof.
  intros E1. unfold_flow. rewrite E1; simpl.
  destruct (Tree.mkdirp d root) as [root1|e]; simpl; [|eexists; reflexivity].
  destruct (Tree.write f content root1); simpl; eexists; reflexivity.
Qed.

End Plain.

(** ** What is written *)

Section Writes.
Variables (c : command) (arg : string) (d f : path) (content : string).
Variables (dir here : path) (input : list string).

Ltac write_event H :=
  simpl in H; unfold success, announcement, already_exists, failure in H;
  repeat (destruct H as [H|H]; [try discriminate H; inversion H; auto|]);
  destruct H.

(** Every write of a guarded run is the write of [content] to [f]. *)
Lemma guarded_writes (root : node) (p : path) (x : string) :
  In (CallWrite p x)
     (trace (snd (guarded_flow c arg d f content (start dir here input root)))) ->
  p = f /\ x = content.
Proof.
  unfold_flow.
  destruct (Tree.exists_ d root); simpl.
  - destruct (Tree.exists_ f root); simpl; [intros H; write_event H|].
    destruct (Tree.write f content root); simpl; intros H; write_event H.
  - destruct (Tree.mkdirp d root) as [root1|e]; simpl; [|intros H; write_event H].
    destruct (Tree.exists_ f root1); simpl; [intros H; write_event H|].
    destruct (Tree.write f content root1); simpl; intros H; write_event H.
Qed.

(** A guarded run that reports success made one write. *)
Lemma guarded_one_write (root : node) :
  let w := snd (guarded_flow c arg d f content (start dir here input root)) in
  In (success c arg) (trace w) ->
  filter is_write (trace w) = [CallWrite f content].
Proof.
  unfold_flow.
  destruct (Tree.exists_ d root); simpl.
  - destruct (Tree.exists_ f root); simpl; [intros H; absurd_event H|].
    destruct (Tree.write f content root); simpl; [|intros H; absurd_event H].
    reflexivity.
  - destruct (Tree.mkdirp d root) as [root1|e]; simpl; [|intros H; absurd_event H].
    destruct (Tree.exists_ f root1); simpl; [intros H; absurd_event H|].
    destruct (Tree.write f content root1); simpl; [|intros H; absurd_event H].
    reflexivity.
Qed.

End Writes.

(** ** The claims about the file commands *)

(** C2. Running [express-route] twice in the same working directory:
    when the first run reports that it created the route, the file
    [routes/<name>.js] holds the text the first run wrote, the second run
    prints that the route already exists, calls nothing that writes and
    leaves the tree as the first run left it; over both runs one write is
    made.  Whatever the first run did, the second changes nothing. *)
Theorem express_route_twice (routeName : string) (dir here : path) (root : node) :
  let first := run ExpressRoute routeName dir here root in
  let second := run_again ExpressRoute routeName dir here root in
  let routeDir := Path.join dir "routes" in
  let routeFile := Path.join routeDir (routeName ++ ".js") in
  let content := Str.trim (routeTemplate routeName) in
  fs (snd second) = fs (snd first)
  /\ (In (Log Green ("Route " ++ routeName ++ " created successfully!"))
         (trace (snd first)) ->
      Tree.stat routeFile (fs (snd second)) = Tree.Found (File content)
      /\ second =
         (Normal tt,
          mkProcess dir here [] (fs (snd first))
            [ Log Blue ("Creating route for: " ++ routeName);
              CallExists routeDir true;
              CallExists routeFile true;
              Log Red ("Route " ++ routeName ++ " already exists.") ])
      /\ filter is_write (trace (snd first) ++ trace (snd second))
         = [CallWrite routeFile content]).
Proof.
  intros first second routeDir routeFile content.
  unfold second, run_again. fold first. unfold run in *.
  assert (G : forall r, action ExpressRoute routeName (start dir here [] r) =
              guarded_flow ExpressRoute routeName routeDir routeFile content
                (start dir here [] r))
    by (intros r; now rewrite action_guarded).
  subst first. rewrite !G. split.
  - apply guarded_idempotent.
  - intros H.
    destruct (guarded_created ExpressRoute routeName routeDir routeFile content
                dir here [] root H) as (F & D & _).
    assert (X : Tree.exists_ routeFile
                  (fs (snd (guarded_flow ExpressRoute routeName routeDir routeFile
                              content (start dir here [] root)))) = true)
      by (unfold Tree.exists_; now rewrite F).
    rewrite (guarded_taken ExpressRoute routeName routeDir routeFile content
               dir here [] _ D X).
    split; [exact F|]. split; [reflexivity|].
    rewrite filter_app.
    rewrite (guarded_one_write ExpressRoute routeName routeDir routeFile content
               dir here [] root H).
    reflexivity.
Qed.

Ltac string_eq :=
  unfold text; repeat first [rewrite append_assoc | progress simpl]; reflexivity.

Ltac in_list := simpl; repeat (first [left; reflexivity | right]).

(** [express-route Item], twice, in the empty project. *)
Lemma express_route_twice_witness :
  In (Log Green "Route Item created successfully!")
     (trace (snd (run ExpressRoute "Item" project_dir install_dir empty_project)))
  /\ Tree.stat ["home"; "proj"; "routes"; "Item.js"]
       (fs (snd (run_again ExpressRoute "Item" project_dir install_dir empty_project)))
     = Tree.Found (File (Str.trim (routeTemplate "Item")))
  /\ filter is_write
       (trace (snd (run ExpressRoute "Item" project_dir install_dir empty_project))
        ++ trace (snd (run_again ExpressRoute "Item" project_dir install_dir
                         empty_project)))
     = [CallWrite ["home"; "proj"; "routes"; "Item.js"]
          (Str.trim (routeTemplate "Item"))].
Proof.
  assert (H : In (Log Green ("Route " ++ "Item" ++ " created successfully!"))
                (trace (snd (run ExpressRoute "Item" project_dir install_dir
                               empty_project))))
    by (vm_compute; in_list).
  destruct (express_route_twice "Item" project_dir install_dir empty_project)
    as [_ K].
  destruct (K H) as (F & _ & W).
  split; [exact H|]. split; [exact F | exact W].
Defined.

(** A file command that reports success has written its text to its
    destination; its directory is there, as a directory if the command had
    to make it. *)
Lemma run_created (c : command) (arg : string) (dir here : path) (root : node) :
  is_file_command c = true ->
  let w := snd (run c arg dir here root) in
  In (success c arg) (trace w) ->
  Tree.stat (destination c arg dir) (fs w) = Tree.Found (File (generated c arg))
  /\ Tree.exists_ (target_dir c dir) (fs w) = true
  /\ (Tree.exists_ (target_dir c dir) root = false ->
      dir_at (target_dir c dir) (fs w) = true).
Proof.
  intros Hc w. subst w. unfold run.
  destruct c; try discriminate Hc;
    first [ rewrite action_plain; apply plain_created
          | rewrite action_guarded by reflexivity; apply guarded_created ].
Qed.

(** A file command that misses its directory asks for it first. *)
Lemma run_mkdir_first (c : command) (arg : string) (dir here : path) (root : node) :
  is_file_command c = true ->
  Tree.exists_ (target_dir c dir) root = false ->
  exists rest,
    trace (snd (run c arg dir here root)) =
    announcement c arg :: CallExists (target_dir c dir) false
      :: CallMkdir (target_dir c dir) :: rest.
Proof.
  intros Hc. unfold run.
  destruct c; try discriminate Hc;
    first [ rewrite action_plain; apply plain_mkdir_first
          | rewrite action_guarded by reflexivity; apply guarded_mkdir_first ].
Qed.

(** C3. [express-model N], when it reports that it created the model,
    has written to [models/N.js] the text of the template with [N] at each
    of its interpolation points: the schema variable [NSchema], the model
    [N] registered under the name [N], and the default export of [N]. *)
Theorem express_model_content (modelName : string) (dir here : path) (root : node) :
  let w := snd (run ExpressModel modelName dir here root) in
  let modelFile := Path.join (Path.join dir "models") (modelName ++ ".js") in
  let content :=
    text [ "import mongoose from 'mongoose';";
           "";
           "const " ++ modelName ++ "Schema = new mongoose.Schema({";
           "  // Define your schema here";
           "  name: { type: String, required: true },";
           "  createdAt: { type: Date, default: Date.now },";
           "});";
           "";
           "const " ++ modelName ++ " = mongoose.model('" ++ modelName ++ "', "
             ++ modelName ++ "Schema);";
           "";
           "export default " ++ modelName ++ ";" ] in
  In (Log Green ("Model " ++ modelName ++ " created successfully!")) (trace w) ->
  Tree.stat modelFile (fs w) = Tree.Found (File content)
  /\ Str.occurs_in ("const " ++ modelName ++ "Schema = new mongoose.Schema({") content
  /\ Str.occurs_in
       ("const " ++ modelName ++ " = mongoose.model('" ++ modelName ++ "', "
          ++ modelName ++ "Schema);") content
  /\ Str.occurs_in ("export default " ++ modelName ++ ";") content.
Proof.
  intros w modelFile content H.
  destruct (run_created ExpressModel modelName dir here root eq_refl H) as (F & _).
  split; [|split; [|split]].
  - unfold generated in F. rewrite trim_modelTemplate in F. exact F.
  - exists ("import mongoose from 'mongoose';" ++ Str.nl ++ "" ++ Str.nl).
    eexists. unfold content. string_eq.
  - exists ("import mongoose from 'mongoose';" ++ Str.nl ++ "" ++ Str.nl
            ++ "const " ++ modelName ++ "Schema = new mongoose.Schema({" ++ Str.nl
            ++ "  // Define your schema here" ++ Str.nl
            ++ "  name: { type: String, required: true }," ++ Str.nl
            ++ "  createdAt: { type: Date, default: Date.now }," ++ Str.nl
            ++ "});" ++ Str.nl ++ "" ++ Str.nl).
    eexists. unfold content. string_eq.
  - exists ("import mongoose from 'mongoose';" ++ Str.nl ++ "" ++ Str.nl
            ++ "const " ++ modelName ++ "Schema = new mongoose.Schema({" ++ Str.nl
            ++ "  // Define your schema here" ++ Str.nl
            ++ "  name: { type: String, required: true }," ++ Str.nl
            ++ "  createdAt: { type: Date, default: Date.now }," ++ Str.nl
            ++ "});" ++ Str.nl ++ "" ++ Str.nl
            ++ "const " ++ modelName ++ " = mongoose.model('" ++ modelName ++ "', "
            ++ modelName ++ "Schema);" ++ Str.nl ++ "" ++ Str.nl).
    exists "". unfold content. string_eq.
Qed.

(** [express-model Widget] in the empty project. *)
Lemma express_model_content_witness :
  In (Log Green "Model Widget created successfully!")
     (trace (snd (run ExpressModel "Widget" project_dir install_dir empty_project)))
  /\ Str.occurs_in "const WidgetSchema = new mongoose.Schema({"
       (text [ "import mongoose from 'mongoose';"; "";
               "const WidgetSchema = new mongoose.Schema({";
               "  // Define your schema here";
               "  name: { type: String, required: true },";
               "  createdAt: { type: Date, default: Date.now },";
               "});"; "";
               "const Widget = mongoose.model('Widget', WidgetSchema);";
               "";
               "export default Widget;" ])
  /\ Tree.stat ["home"; "proj"; "models"; "Widget.js"]
       (fs (snd (run ExpressModel "Widget" project_dir install_dir empty_project)))
     = Tree.Found
         (File
            (text [ "import mongoose from 'mongoose';"; "";
                    "const WidgetSchema = new mongoose.Schema({";
                    "  // Define your schema here";
                    "  name: { type: String, required: true },";
                    "  createdAt: { type: Date, default: Date.now },";
                    "});"; "";
                    "const Widget = mongoose.model('Widget', WidgetSchema);";
                    "";
                    "export default Widget;" ])).
Proof.
  assert (H : In (Log Green ("Model " ++ "Widget" ++ " created successfully!"))
                (trace (snd (run ExpressModel "Widget" project_dir install_dir
                               empty_project))))
    by (vm_compute; in_list).
  destruct (express_model_content "Widget" project_dir install_dir empty_project H)
    as (F & O & _).
  split; [exact H|]. split; [exact O | exact F].
Defined.

(** C9. The text [express-controller] writes does not depend on the
    controller name: for any two names, in any two runs, every write is
    the write of the constant [//Your Code here], and so is the content of
    each file once the run reports success; the name decides the path
    [controllers/<name>.js] only. *)
Theorem controller_content_constant
  (name1 name2 : string) (dir1 dir2 here1 here2 : path) (root1 root2 : node) :
  let w1 := snd (run ExpressController name1 dir1 here1 root1) in
  let w2 := snd (run ExpressController name2 dir2 here2 root2) in
  let file1 := Path.join (Path.join dir1 "controllers") (name1 ++ ".js") in
  let file2 := Path.join (Path.join dir2 "controllers") (name2 ++ ".js") in
  (forall p1 c1 p2 c2,
      In (CallWrite p1 c1) (trace w1) -> In (CallWrite p2 c2) (trace w2) ->
      c1 = c2 /\ c1 = "//Your Code here" /\ p1 = file1 /\ p2 = file2)
  /\ (In (Log Green ("Controller " ++ name1 ++ " created successfully!")) (trace w1) ->
      In (Log Green ("Controller " ++ name2 ++ " created successfully!")) (trace w2) ->
      Tree.stat file1 (fs w1) = Tree.Found (File "//Your Code here")
      /\ Tree.stat file2 (fs w2) = Tree.Found (File "//Your Code here")).
Proof.
  intros w1 w2 file1 file2. split.
  - intros p1 c1 p2 c2 H1 H2. subst w1 w2. unfold run in *.
    rewrite action_guarded in H1, H2 by reflexivity.
    apply guarded_writes in H1, H2. destruct H1 as [-> ->], H2 as [-> ->].
    repeat split; reflexivity.
  - intros H1 H2.
    destruct (run_created ExpressController name1 dir1 here1 root1 eq_refl H1)
      as (F1 & _).
    destruct (run_created ExpressController name2 dir2 here2 root2 eq_refl H2)
      as (F2 & _).
    split; assumption.
Qed.

(** [express-controller user] and [express-controller order]. *)
Lemma controller_content_constant_witness :
  Tree.stat ["home"; "proj"; "controllers"; "user.js"]
    (fs (snd (run ExpressController "user" project_dir install_dir empty_project)))
  = Tree.Found (File "//Your Code here")
  /\ Tree.stat ["home"; "proj"; "controllers"; "order.js"]
       (fs (snd (run ExpressController "order" project_dir install_dir
                   empty_project)))
     = Tree.Found (File "//Your Code here").
Proof.
  refine (proj2 (controller_content_constant "user" "order" project_dir project_dir
                   install_dir install_dir empty_project empty_project) _ _);
    vm_compute; in_list.
Defined.

(** A file command that misses its directory either fails to make it,
    logs that and stops, or leaves it made. *)
Lemma guarded_mkdir (c : command) (arg : string) (d f : path) (content : string)
  (dir here : path) (input : list string) (root : node) :
  Tree.exists_ d root = false ->
  let w := snd (guarded_flow c arg d f content (start dir here input root)) in
  (exists code,
      Tree.mkdirp d root = inr code
      /\ fs w = root
      /\ trace w = [ announcement c arg; CallExists d false; CallMkdir d;
                     Threw (SystemError code "mkdir" d);
                     failure c (SystemError code "mkdir" d) ])
  \/ dir_at d (fs w) = true.
Proof.
  intros E1. unfold_flow. rewrite E1; simpl.
  destruct (Tree.mkdirp d root) as [root1|code] eqn:E2; simpl.
  - right. assert (D := mkdirp_dir_at _ _ E2).
    destruct (Tree.exists_ f root1); simpl; [exact D|].
    destruct (Tree.write f content root1) as [root2|e] eqn:E4; simpl; [|exact D].
    eapply write_dir_at; eauto.
  - left. exists code. repeat split.
Qed.

Lemma plain_mkdir (c : command) (arg : string) (d f : path) (content : string)
  (dir here : path) (input : list string) (root : node) :
  Tree.exists_ d root = false ->
  let w := snd (plain_flow c arg d f content (start dir here input root)) in
  (exists code,
      Tree.mkdirp d root = inr code
      /\ fs w = root
      /\ trace w = [ announcement c arg; CallExists d false; CallMkdir d;
                     Threw (SystemError code "mkdir" d);
                     failure c (SystemError code "mkdir" d) ])
  \/ dir_at d (fs w) = true.
Proof.
  intros E1. unfold_flow. rewrite E1; simpl.
  destruct (Tree.mkdirp d root) as [root1|code] eqn:E2; simpl.
  - right. assert (D := mkdirp_dir_at _ _ E2).
    destruct (Tree.write f content root1) as [root2|e] eqn:E4; simpl; [|exact D].
    eapply write_dir_at; eauto.
  - left. exists code. repeat split.
Qed.

Lemma run_mkdir (c : command) (arg : string) (dir here : path) (root : node) :
  is_file_command c = true ->
  Tree.exists_ (target_dir c dir) root = false ->
  let w := snd (run c arg dir here root) in
  let d := target_dir c dir in
  (exists code,
      Tree.mkdirp d root = inr code
      /\ fs w = root
      /\ trace w = [ announcement c arg; CallExists d false; CallMkdir d;
                     Threw (SystemError code "mkdir" d);
                     failure c (SystemError code "mkdir" d) ])
  \/ dir_at d (fs w) = true.
Proof.
  intros Hc. unfold run.
  destruct c; try discriminate Hc;
    first [ rewrite action_plain; apply plain_mkdir
          | rewrite action_guarded by reflexivity; apply guarded_mkdir ].
Qed.

(** C5. A file command that does not find its directory asks
    [mkdirSync] for it, with [recursive], before it writes anything.
    Unless a regular file stands in the way, in which case the error is
    logged and nothing is written, the directory and every directory
    above it are there when the run ends; when the run reports success the
    destination holds the generated text.  For [react-component] that text
    declares and exports a component named as the argument. *)
Theorem missing_directory_created
  (c : command) (arg : string) (dir here : path) (root : node) :
  is_file_command c = true ->
  Tree.exists_ (target_dir c dir) root = false ->
  let w := snd (run c arg dir here root) in
  let d := target_dir c dir in
  (exists rest,
      trace w = announcement c arg :: CallExists d false :: CallMkdir d :: rest)
  /\ ((exists code,
          Tree.mkdirp d root = inr code
          /\ fs w = root
          /\ trace w = [ announcement c arg; CallExists d false; CallMkdir d;
                         Threw (SystemError code "mkdir" d);
                         failure c (SystemError code "mkdir" d) ])
      \/ (forall q, Path.is_prefix q d = true -> dir_at q (fs w) = true))
  /\ (In (success c arg) (trace w) ->
      Tree.stat (destination c arg dir) (fs w) = Tree.Found (File (generated c arg)))
  /\ generated ReactComponent arg =
     text [ "import React from 'react';"; "";
            "const " ++ arg ++ " = () => {";
            "  return (";
            "    <div>";
            "      <h1>" ++ arg ++ "</h1>";
            "    </div>";
            "  );";
            "};";
            "export default " ++ arg ++ ";" ].
Proof.
  intros Hc Hd w d. split; [|split; [|split]].
  - now apply run_mkdir_first.
  - destruct (run_mkdir c arg dir here root Hc Hd) as [F|D]; [left; exact F|].
    right. intros q Hq. eapply dir_at_prefix; eauto.
  - intros H. now destruct (run_created c arg dir here root Hc H) as (F & _).
  - apply trim_componentTemplate.
Qed.

(** [react-component Header] where there is no [src/components]. *)
Lemma missing_directory_created_witness :
  Tree.exists_ ["home"; "proj"; "src"] empty_project = false
  /\ dir_at ["home"; "proj"; "src"]
       (fs (snd (run ReactComponent "Header" project_dir install_dir empty_project)))
     = true
  /\ dir_at ["home"; "proj"; "src"; "components"]
       (fs (snd (run ReactComponent "Header" project_dir install_dir empty_project)))
     = true
  /\ Tree.stat ["home"; "proj"; "src"; "components"; "Header.jsx"]
       (fs (snd (run ReactComponent "Header" project_dir install_dir empty_project)))
     = Tree.Found (File (generated ReactComponent "Header")).
Proof.
  destruct (@missing_directory_created ReactComponent "Header" project_dir
              install_dir empty_project eq_refl eq_refl) as (_ & D & K & _).
  split; [reflexivity|].
  destruct D as [(code & M & _)|P]; [discriminate M|].
  split; [apply P; reflexivity|]. split; [apply P; reflexivity|].
  apply K. vm_compute. in_list.
Defined.

(** C1, at the input where it fails.  [react-component Header] over a
    [Header.jsx] that was edited by hand: the action never asks whether
    the file exists, prints no "already exists" line, writes, and the
    edited text is gone. *)
Theorem react_component_overwrites :
  let file := ["home"; "proj"; "src"; "components"; "Header.jsx"] in
  let r := run ReactComponent "Header" project_dir install_dir edited_project in
  Tree.stat file edited_project = Tree.Found (File "// edited by hand")
  /\ Tree.stat file (fs (snd r)) = Tree.Found (File (generated ReactComponent "Header"))
  /\ generated ReactComponent "Header" <> "// edited by hand"
  /\ trace (snd r) =
     [ Log Blue "Creating React component: Header";
       CallExists ["home"; "proj"; "src"; "components"] true;
       CallWrite file (generated ReactComponent "Header");
       Log Green "Component Header created successfully!" ].
Proof.
  repeat split; try reflexivity. vm_compute. discriminate.
Qed.

(** ** Every command, over any file system *)

Ltac unfold_action :=
  cbv beta iota zeta delta
    [action express_action react_action react_component_action
     express_model_action express_controller_action express_route_action
     express_middleware_action call bind try_catch when fs_existsSync
     fs_mkdirSync fs_writeFileSync fs_copySync effect emit console_log
     console_error return_ throw process_cwd uv_cwd cwd_there
     module_dirname ret start
     cwd dirname stdin fs trace fst snd negb app].

Ltac split_calls :=
  repeat match goal with
         | |- context [existsSync ?p ?s] => destruct (existsSync p s); simpl
         | |- context [mkdirSync ?p ?s] =>
             destruct (mkdirSync p s) as [? [?|]]; simpl
         | |- context [writeFileSync ?p ?x ?s] =>
             destruct (writeFileSync p x s) as [? [?|]]; simpl
         | |- context [copySync ?p ?q ?s] =>
             destruct (copySync p q s) as [? [?|]]; simpl
         end.

Section AnyFileSystem.
Context {S : Type} {FS : FileSystem S}.
Variables (c : command) (arg : string) (dir here : path) (input : list string).

(** No action lets an exception through, and none ends by [return] at
    top level. *)
Lemma action_normal (s : S) :
  fst (action c arg (start dir here input s)) = Normal tt.
Proof. destruct c; unfold_action; split_calls; reflexivity. Qed.

(** An exception raised during a run is the one the [catch] clause logs. *)
Lemma action_logs (s : S) (e : error) :
  let w := snd (action c arg (start dir here input s)) in
  In (Threw e) (trace w) -> In (failure c e) (trace w).
Proof.
  destruct c; unfold_action; split_calls; unfold failure; simpl;
    intros H;
    repeat (destruct H as [H|H]; [try discriminate H; inversion H; subst|]);
    try destruct H; in_list.
Qed.

(** No run asks a question or reads a line of input. *)
Lemma action_silent (s : S) :
  let w := snd (action c arg (start dir here input s)) in
  existsb is_question (trace w) = false /\ stdin w = input.
Proof. destruct c; unfold_action; split_calls; split; reflexivity. Qed.

(** A project command is one call of [copySync]; what the call leaves is
    what the run leaves, and its error, if any, is logged. *)
Lemma project_run (s : S) :
  is_project_command c = true ->
  let src := template_dir c here in
  let dest := Path.join dir arg in
  action c arg (start dir here input s) =
  (Normal tt,
   mkProcess dir here input (fst (copySync src dest s))
     (match snd (copySync src dest s) with
      | None => [announcement c arg; CallCopy src dest; success c arg]
      | Some e => [announcement c arg; CallCopy src dest; Threw e; failure c e]
      end)).
Proof.
  intros Hc. destruct c; try discriminate Hc; unfold_action;
    unfold template_dir; split_calls; reflexivity.
Qed.

End AnyFileSystem.

(** C10. [askUserConfirmation] cannot run: the first thing it
    evaluates is [readline], which no import and no declaration of the
    module binds and which is not a global, so every call throws a
    [ReferenceError] before any question is asked. *)
Theorem confirmation_helper_throws (S : Type) (question : string) (w : process S) :
  in_scope "readline" = false
  /\ existsb (String.eqb "readline") module_bindings = false
  /\ askUserConfirmation question w =
     (Throw (ReferenceError "readline"),
      mkProcess (cwd w) (dirname w) (stdin w) (fs w)
        (trace w ++ [Threw (ReferenceError "readline")])).
Proof. repeat split. Qed.

(** ** Copying a tree *)

Lemma node_induction (P : node -> Prop) :
  (forall c, P (File c)) ->
  (forall es, Forall (fun e => P (snd e)) es -> P (Dir es)) ->
  forall n, P n.
Proof.
  intros HF HD. fix IH 1. intros [c|es]; [apply HF|]. apply HD.
  induction es as [|[s child] es IHes]; constructor; [apply IH | exact IHes].
Qed.





(** The parts of a well-formed tree are well-formed. *)
Lemma wf_assoc (s : string) (es : list (string * node)) (child : node) :
  Tree.wf_entries Tree.wf es = true -> Tree.assoc s es = Some child ->
  Tree.wf child = true.
Proof.
  induction es as [|[k m] es IH]; simpl; [discriminate|].
  destruct (Tree.assoc k es); [discriminate|]. intros W.
  apply andb_prop in W as [Wm We].
  destruct (String.eqb s k); [intros H; now inversion H; subst | now apply IH].
Qed.

Lemma wf_stat (p : path) (n x : node) :
  Tree.wf n = true -> Tree.stat p n = Tree.Found x -> Tree.wf x = true.
Proof.
  revert n. induction p as [|s p IH]; intros n W H; simpl in H.
  - inversion H; now subst.
  - destruct n as [c|es]; [discriminate|].
    destruct (Tree.assoc s es) as [child|] eqn:A; [|discriminate].
    apply (IH child); [|exact H]. simpl in W. eapply wf_assoc; eauto.
Qed.





Lemma is_prefix_self_app (p r : path) : Path.is_prefix p (p ++ r)%list = true.
Proof.
  induction p as [|a p IH]; simpl; [reflexivity|].
  now rewrite String.eqb_refl, IH.
Qed.





(** ** The claims about the project commands *)


(** C6. When [copySync] throws, for whatever reason, the project
    command catches the exception, logs it on the error stream and ends
    normally; the file system is left as the call left it, with no attempt
    to undo what was copied.  When the template directory is missing the
    call changes nothing, so no destination directory appears. *)
Theorem project_copy_failure (c : command) (arg : string) (dir here : path) :
  is_project_command c = true ->
  let src := template_dir c here in
  let dest := Path.join dir arg in
  (forall (S : Type) (FS : FileSystem S) (input : list string) (s s' : S)
          (e : error),
      copySync src dest s = (s', Some e) ->
      action c arg (start dir here input s) =
      (Normal tt,
       mkProcess dir here input s'
         [ announcement c arg; CallCopy src dest; Threw e;
           LogError Red "Error copying template files:" e ]))
  /\ (forall root : node,
         Tree.exists_ src root = false ->
         exists e,
           run c arg dir here root =
           (Normal tt,
            mkProcess dir here [] root
              [ announcement c arg; CallCopy src dest; Threw e;
                LogError Red "Error copying template files:" e ])).
Proof.
  intros Hc src dest.
  assert (G : forall (S : Type) (FS : FileSystem S) input (s s' : S) e,
             copySync src dest s = (s', Some e) ->
             action c arg (start dir here input s) =
             (Normal tt,
              mkProcess dir here input s'
                [ announcement c arg; CallCopy src dest; Threw e;
                  LogError Red "Error copying template files:" e ])).
  { intros S FS input s s' e H. rewrite project_run by exact Hc.
    fold src dest. rewrite H. simpl.
    destruct c; try discriminate Hc; reflexivity. }
  split; [exact G|].
  intros root X. unfold Tree.exists_ in X. unfold run.
  destruct (Tree.stat src root) as [t| |] eqn:Hs; [discriminate| |];
    eexists; apply G; simpl; unfold Tree.copy; rewrite Hs; reflexivity.
Qed.

(** [express app] over an [app] where [routes] is a file, and [react app]
    where the React template is not installed. *)
Lemma project_copy_failure_witness :
  (* a copy that stops halfway: what was copied stays *)
  (let w := snd (run Express "app" project_dir install_dir project_with_clash) in
   trace w =
   [ Log Blue "Creating Express project: app";
     CallCopy ["opt"; "mern"; "templates"; "express"] ["home"; "proj"; "app"];
     Threw Tree.overwrite_non_dir;
     LogError Red "Error copying template files:" Tree.overwrite_non_dir ]
   /\ Tree.stat ["home"; "proj"; "app"; "index.js"] project_with_clash = Tree.Missing
   /\ Tree.stat ["home"; "proj"; "app"; "index.js"] (fs w)
      = Tree.Found (File "const express = require('express');"))
  (* the template is missing: nothing is made *)
  /\ (let w := snd (run React "app" project_dir install_dir empty_project) in
      fs w = empty_project
      /\ Tree.stat ["home"; "proj"; "app"] (fs w) = Tree.Missing).
Proof.
  destruct (@project_copy_failure Express "app" project_dir install_dir eq_refl)
    as [G _].
  destruct (@project_copy_failure React "app" project_dir install_dir eq_refl)
    as [_ K].
  split.
  - unfold run.
    rewrite (G node tree_fs [] project_with_clash
               (fst (Tree.copy ["opt"; "mern"; "templates"; "express"]
                       ["home"; "proj"; "app"] project_with_clash))
               Tree.overwrite_non_dir eq_refl).
    repeat split; reflexivity.
  - destruct (K empty_project eq_refl) as [e ->]. split; reflexivity.
Defined.
















(** ** The guarded commands, once more *)

(** A guarded command that finds its destination taken says so and
    leaves the tree alone; run again on what it left, it changes nothing. *)
Lemma guarded_commands_keep (c : command) (arg : string) (dir here : path)
  (root : node) :
  is_guarded c = true ->
  fs (snd (run_again c arg dir here root)) = fs (snd (run c arg dir here root))
  /\ (Tree.exists_ (target_dir c dir) root = true ->
      Tree.exists_ (destination c arg dir) root = true ->
      run c arg dir here root =
      (Normal tt,
       mkProcess dir here [] root
         [ announcement c arg; CallExists (target_dir c dir) true;
           CallExists (destination c arg dir) true; already_exists c arg ])).
Proof.
  intros Hc. unfold run_again, run.
  assert (G : forall r, action c arg (start dir here [] r) =
              guarded_flow c arg (target_dir c dir) (destination c arg dir)
                (generated c arg) (start dir here [] r))
    by (intros r; now rewrite action_guarded).
  rewrite !G. split; [apply guarded_idempotent | apply guarded_taken].
Qed.

(** ** Well-formed trees stay well-formed *)

Lemma put_wf (s : string) (n : node) (es : list (string * node)) :
  Tree.wf_entries Tree.wf es = true -> Tree.wf n = true ->
  Tree.wf_entries Tree.wf (Tree.put s n es) = true.
Proof.
  intros W Wn. induction es as [|[k m] es IH]; simpl in *.
  - now rewrite Wn.
  - destruct (Tree.assoc k es) eqn:A; [discriminate|].
    apply andb_prop in W as [Wm We].
    destruct (String.eqb s k) eqn:K; simpl.
    + now rewrite A, Wn, We.
    + apply String.eqb_neq in K.
      rewrite assoc_put_other by congruence. now rewrite A, Wm, IH.
Qed.

Lemma wf_child (s : string) (es : list (string * node)) :
  Tree.wf_entries Tree.wf es = true ->
  Tree.wf (match Tree.assoc s es with Some child => child | None => Dir [] end)
  = true.
Proof.
  intros W. destruct (Tree.assoc s es) as [child|] eqn:A; [|reflexivity].
  eapply wf_assoc; eauto.
Qed.

Lemma mkdirp_wf (p : path) (n n' : node) :
  Tree.wf n = true -> Tree.mkdirp p n = inl n' -> Tree.wf n' = true.
Proof.
  revert n n'. induction p as [|s p IH]; intros [c|es] n' W H; simpl in H;
    try discriminate.
  - now inversion H; subst.
  - destruct (Tree.mkdirp p _) as [child'|e] eqn:E; inversion H; subst n'.
    simpl in *. apply put_wf; [exact W|].
    apply (IH _ _ (wf_child s es W) E).
Qed.

Lemma write_wf (p : path) (c : string) (n n' : node) :
  Tree.wf n = true -> Tree.write p c n = inl n' -> Tree.wf n' = true.
Proof.
  revert n n'. induction p as [|s p IH]; intros [d|es] n' W H; simpl in H;
    try discriminate.
  - now inversion H.
  - destruct (Tree.assoc s es) as [child|] eqn:A.
    + destruct (Tree.write p c child) as [child'|e] eqn:E; inversion H; subst n'.
      simpl in *. apply put_wf; [exact W|].
      apply (IH _ _ (wf_assoc _ _ W A) E).
    + destruct p; inversion H; subst n'. simpl in *. now apply put_wf.
Qed.

Lemma graft_wf (p : path) (x n : node) :
  Tree.wf n = true -> Tree.wf x = true -> Tree.wf (Tree.graft p x n) = true.
Proof.
  revert n. induction p as [|s p IH]; intros n W Wx; [exact Wx|].
  destruct n as [c|es]; [exact W|]. simpl.
  destruct (Tree.assoc s es) as [child|] eqn:A.
  - simpl in *. apply put_wf; [exact W|]. apply IH; [|exact Wx].
    eapply wf_assoc; eauto.
  - destruct p; [|exact W]. simpl in *. now apply put_wf.
Qed.

Lemma copy_entries_wf (es : list (string * node)) :
  Forall (fun e => forall d,
              match d with Some d0 => Tree.wf d0 = true | None => True end ->
              wf_copied (Tree.copy_node (snd e) d) = true) es ->
  forall ds,
    Tree.wf_entries Tree.wf ds = true ->
    wf_copied (Tree.copy_entries Tree.copy_node es ds) = true.
Proof.
  induction 1 as [|[s child] es Hc _ IH]; intros ds W; simpl; [exact W|].
  simpl in Hc. specialize (Hc (Tree.assoc s ds)).
  destruct (Tree.copy_node child (Tree.assoc s ds)) as [child'|remains e];
    simpl in Hc.
  - apply IH. apply put_wf; [exact W|]. apply Hc.
    destruct (Tree.assoc s ds) eqn:A; [|exact I]. eapply wf_assoc; eauto.
  - simpl. apply put_wf; [exact W|]. apply Hc.
    destruct (Tree.assoc s ds) eqn:A; [|exact I]. eapply wf_assoc; eauto.
Qed.

Lemma copy_node_wf (t : node) (d : option node) :
  match d with Some d0 => Tree.wf d0 = true | None => True end ->
  wf_copied (Tree.copy_node t d) = true.
Proof.
  revert d. induction t as [c|es IH] using node_induction; intros d W.
  - destruct d as [[?|?]|]; simpl; auto.
  - destruct d as [[?|ds]|]; simpl; auto; now apply copy_entries_wf.
Qed.

Lemma copy_wf (src dest : path) (root : node) :
  Tree.wf root = true -> Tree.wf (fst (Tree.copy src dest root)) = true.
Proof.
  intros W. unfold Tree.copy.
  destruct (Tree.stat src root) as [t| |]; try exact W.
  assert (K : forall d root1,
             match d with Some d0 => Tree.wf d0 = true | None => True end ->
             Tree.wf root1 = true ->
             Tree.wf (fst match Tree.copy_node t d with
                          | Tree.Done result =>
                              (Tree.graft dest result root1, @None error)
                          | Tree.Stopped remains e =>
                              (Tree.graft dest remains root1, Some e)
                          end) = true).
  { intros d root1 Wd W1. assert (C := copy_node_wf t d Wd).
    destruct (Tree.copy_node t d); simpl in *; now apply graft_wf. }
  destruct (Tree.stat dest root) as [d| |] eqn:Hd; try exact W;
    match goal with
    | |- context [Tree.check_paths ?a ?b ?x ?y] =>
        destruct (Tree.check_paths a b x y); [exact W|]
    end;
    (destruct (Tree.exists_ (Path.dirname dest) root);
     [|destruct (Tree.mkdirp (Path.dirname dest) root) as [root1|e] eqn:M;
       [|exact W]]);
    apply K; trivial.
  all: match goal with
       | M : Tree.mkdirp _ _ = inl ?r |- Tree.wf ?r = true =>
           eapply mkdirp_wf; [exact W | exact M]
       | H : Tree.stat _ _ = Tree.Found ?x |- Tree.wf ?x = true =>
           eapply wf_stat; [exact W | exact H]
       end.
Qed.

Lemma guarded_flow_wf (c : command) (arg : string) (d f : path) (x : string)
  (dir here : path) (input : list string) (root : node) :
  Tree.wf root = true ->
  Tree.wf (fs (snd (guarded_flow c arg d f x (start dir here input root)))) = true.
Proof.
  intros W. unfold_flow.
  assert (K : forall r, Tree.wf r = true ->
             Tree.wf match Tree.write f x r with inl r' => r' | inr _ => r end
             = true).
  { intros r Wr. destruct (Tree.write f x r) eqn:E; [|exact Wr].
    eapply write_wf; eauto. }
  destruct (Tree.exists_ d root); simpl.
  - destruct (Tree.exists_ f root); simpl; [exact W|].
    specialize (K root W). now destruct (Tree.write f x root).
  - destruct (Tree.mkdirp d root) as [root1|e] eqn:E; simpl; [|exact W].
    assert (W1 : Tree.wf root1 = true) by (eapply mkdirp_wf; eauto).
    destruct (Tree.exists_ f root1); simpl; [exact W1|].
    specialize (K root1 W1). now destruct (Tree.write f x root1).
Qed.

Lemma plain_flow_wf (c : command) (arg : string) (d f : path) (x : string)
  (dir here : path) (input : list string) (root : node) :
  Tree.wf root = true ->
  Tree.wf (fs (snd (plain_flow c arg d f x (start dir here input root)))) = true.
Proof.
  intros W. unfold_flow.
  assert (K : forall r, Tree.wf r = true ->
             Tree.wf match Tree.write f x r with inl r' => r' | inr _ => r end
             = true).
  { intros r Wr. destruct (Tree.write f x r) eqn:E; [|exact Wr].
    eapply write_wf; eauto. }
  destruct (Tree.exists_ d root); simpl.
  - specialize (K root W). now destruct (Tree.write f x root).
  - destruct (Tree.mkdirp d root) as [root1|e] eqn:E; simpl; [|exact W].
    assert (W1 : Tree.wf root1 = true) by (eapply mkdirp_wf; eauto).
    specialize (K root1 W1). now destruct (Tree.write f x root1).
Qed.

(** Every command leaves a well-formed tree well-formed. *)
Lemma run_wf (c : command) (arg : string) (dir here : path) (root : node) :
  Tree.wf root = true -> Tree.wf (fs (snd (run c arg dir here root))) = true.
Proof.
  intros W. unfold run.
  destruct c;
    first [ rewrite project_run by reflexivity; apply copy_wf, W
          | rewrite action_plain; apply plain_flow_wf, W
          | rewrite action_guarded by reflexivity; apply guarded_flow_wf, W ].
Qed.

(** ** Names without a separator *)

Lemma split_on_plain (s : string) :
  Str.has_slash s = false -> Str.split_on "/" s = [s].
Proof.
  induction s as [|c s IH]; simpl; [reflexivity|].
  destruct (Ascii.eqb c "/"); simpl; [discriminate|].
  intros H. now rewrite (IH H).
Qed.

Lemma has_slash_app (a b : string) :
  Str.has_slash (a ++ b) = Str.has_slash a || Str.has_slash b.
Proof.
  induction a as [|c a IH]; simpl; [reflexivity|].
  now rewrite IH, orb_assoc.
Qed.

Lemma length_append (a b : string) :
  String.length (a ++ b) = String.length a + String.length b.
Proof. induction a as [|c a IH]; simpl; [reflexivity | now rewrite IH]. Qed.

(** A plain name with an extension of [index.js] is one step of a path. *)
Lemma join_plain_name (d : path) (name ext : string) :
  Str.has_slash name = false -> ext = ".js" \/ ext = ".jsx" ->
  Path.join d (name ++ ext) = (d ++ [(name ++ ext)%string])%list.
Proof.
  intros Hn He. unfold Path.join. rewrite split_on_plain.
  - assert (L : 3 <= String.length (name ++ ext))
      by (rewrite length_append; destruct He as [-> | ->]; simpl; lia).
    simpl. unfold Path.step.
    destruct (String.eqb_spec (name ++ ext) "") as [E|_];
      [rewrite E in L; simpl in L; lia|].
    destruct (String.eqb_spec (name ++ ext) ".") as [E|_];
      [rewrite E in L; simpl in L; lia|].
    destruct (String.eqb_spec (name ++ ext) "..") as [E|_];
      [rewrite E in L; simpl in L; lia|].
    reflexivity.
  - rewrite has_slash_app, Hn. destruct He as [-> | ->]; reflexivity.
Qed.

(** * Further properties of the commands *)

(** ** What the calls leave alone *)

Lemma put_put (s : string) (a b : node) (es : list (string * node)) :
  Tree.put s a (Tree.put s b es) = Tree.put s a es.
Proof.
  induction es as [|[k m] es IH]; simpl.
  - now rewrite String.eqb_refl.
  - destruct (String.eqb s k) eqn:K; simpl; rewrite K; [reflexivity|].
    now rewrite IH.
Qed.

(** Writing the same text a second time changes nothing. *)
Lemma write_again (p : path) (c : string) (n n' : node) :
  Tree.write p c n = inl n' -> Tree.write p c n' = inl n'.
Proof.
  revert n n'. induction p as [|s p IH]; intros [d|es] n' H; simpl in H;
    try discriminate.
  - inversion H. reflexivity.
  - destruct (Tree.assoc s es) as [child|] eqn:A.
    + destruct (Tree.write p c child) as [child'|e] eqn:E; inversion H.
      simpl. rewrite assoc_put_same, (IH _ _ E), put_put. reflexivity.
    + destruct p; inversion H. simpl. rewrite assoc_put_same, put_put.
      reflexivity.
Qed.

(** Writing a file changes the content of no other file. *)
Lemma write_other_file (f : path) (c : string) (n n' : node) :
  Tree.write f c n = inl n' ->
  forall q c0, q <> f -> Tree.stat q n = Tree.Found (File c0) ->
               Tree.stat q n' = Tree.Found (File c0).
Proof.
  revert n n'. induction f as [|s f IH]; intros [d|es] n' H q c0 N Hq;
    simpl in H; try discriminate.
  - destruct q; [congruence | discriminate].
  - destruct q as [|k q]; [discriminate|]. simpl in Hq.
    destruct (String.eqb k s) eqn:K.
    + apply String.eqb_eq in K. subst k.
      destruct (Tree.assoc s es) as [child|] eqn:A; [|discriminate].
      destruct (Tree.write f c child) as [child'|e] eqn:E; inversion H; subst n'.
      simpl. rewrite assoc_put_same. apply (IH _ _ E); [congruence | exact Hq].
    + apply String.eqb_neq in K.
      destruct (Tree.assoc s es) as [child|].
      * destruct (Tree.write f c child) as [child'|e]; inversion H; subst n'.
        simpl. now rewrite assoc_put_other.
      * destruct f; inversion H; subst n'. simpl. now rewrite assoc_put_other.
Qed.

(** Making directories removes nothing, changes no file and turns no
    file into a directory. *)
Lemma mkdirp_keeps (p : path) (n n' : node) :
  Tree.mkdirp p n = inl n' ->
  forall q x, Tree.stat q n = Tree.Found x ->
  exists x', Tree.stat q n' = Tree.Found x'
             /\ Tree.is_dir x' = Tree.is_dir x
             /\ (forall c, x = File c -> x' = File c).
Proof.
  revert n n'. induction p as [|s p IH]; intros [c|es] n' H q x Hq; simpl in H;
    try discriminate.
  - inversion H; subst n'. exists x. auto.
  - destruct (Tree.mkdirp p _) as [child'|e] eqn:E; inversion H; subst n'.
    destruct q as [|k q].
    + simpl in Hq. inversion Hq; subst x. eexists. split; [reflexivity|].
      split; [reflexivity | discriminate].
    + simpl in Hq |- *. destruct (String.eqb k s) eqn:K.
      * apply String.eqb_eq in K. subst k. rewrite assoc_put_same.
        destruct (Tree.assoc s es) as [child|]; [|discriminate].
        apply (IH _ _ E _ _ Hq).
      * apply String.eqb_neq in K. rewrite assoc_put_other by exact K.
        exists x. auto.
Qed.


Lemma mkdirp_file (p : path) (n n' : node) (q : path) (c : string) :
  Tree.mkdirp p n = inl n' ->
  Tree.stat q n = Tree.Found (File c) -> Tree.stat q n' = Tree.Found (File c).
Proof.
  intros H Q. destruct (mkdirp_keeps _ _ H _ Q) as (x' & -> & _ & F).
  now rewrite (F c eq_refl).
Qed.




(** Grafting at [p] changes no file that is not at [p] or below it. *)
Lemma graft_keeps_file (p q : path) (x n : node) (c : string) :
  Path.is_prefix p q = false ->
  Tree.stat q n = Tree.Found (File c) ->
  Tree.stat q (Tree.graft p x n) = Tree.Found (File c).
Proof.
  revert q n. induction p as [|s p IH]; intros q n Hp Hq; [discriminate|].
  destruct n as [d|es]; [exact Hq|].
  destruct q as [|k q]; [discriminate|]. simpl in Hp, Hq |- *.
  destruct (String.eqb s k) eqn:K; simpl in Hp.
  - apply String.eqb_eq in K. subst k.
    destruct (Tree.assoc s es) as [child|] eqn:A; [|discriminate].
    simpl. rewrite assoc_put_same. now apply IH.
  - assert (N : k <> s) by (intros ->; now rewrite String.eqb_refl in K).
    destruct (Tree.assoc s es) as [child|]; [|destruct p]; simpl;
      rewrite ?assoc_put_other by exact N; exact Hq.
Qed.

(** ** The file commands and the files that are there *)

Section Kept.
Variables (c : command) (arg : string) (d f : path) (content : string).
Variables (dir here : path) (input : list string).

(** A guarded run changes no file and removes no directory. *)
Lemma guarded_keeps (root : node) :
  let w := snd (guarded_flow c arg d f content (start dir here input root)) in
  (forall q c0, Tree.stat q root = Tree.Found (File c0) ->
                Tree.stat q (fs w) = Tree.Found (File c0))
  /\ (forall q, dir_at q root = true -> dir_at q (fs w) = true).
Proof.
  unfold_flow.
  assert (K : forall r, Tree.exists_ f r = false ->
    (forall q c0, Tree.stat q r = Tree.Found (File c0) ->
       Tree.stat q match Tree.write f content r with inl r' => r' | inr _ => r end
       = Tree.Found (File c0))
    /\ (forall q, dir_at q r = true ->
          dir_at q match Tree.write f content r with inl r' => r' | inr _ => r end
          = true)).
  { intros r X. destruct (Tree.write f content r) as [r'|e] eqn:E; [|auto].
    split.
    - intros q c0 Q. apply (@write_other_file f content r r' E); [|exact Q].
      intros ->. unfold Tree.exists_ in X. now rewrite Q in X.
    - intros q. now apply write_dir_at with (1 := E). }
  destruct (Tree.exists_ d root) eqn:E1; simpl.
  - destruct (Tree.exists_ f root) eqn:E3; simpl; [auto|].
    specialize (K root E3). now destruct (Tree.write f content root).
  - destruct (Tree.mkdirp d root) as [root1|e] eqn:E2; simpl; [|auto].
    assert (F1 : forall q c0, Tree.stat q root = Tree.Found (File c0) ->
                              Tree.stat q root1 = Tree.Found (File c0))
      by (intros q c0; now apply mkdirp_file with (1 := E2)).
    assert (D1 : forall q, dir_at q root = true -> dir_at q root1 = true).
    { intros q. unfold dir_at.
      destruct (Tree.stat q root) as [[?|es]| |] eqn:Q; try discriminate.
      destruct (mkdirp_keeps _ _ E2 _ Q) as (x' & -> & I & _).
      now destruct x'. }
    destruct (Tree.exists_ f root1) eqn:E3; simpl; [auto|].
    specialize (K root1 E3).
    destruct (Tree.write f content root1); simpl in *; split.
    + intros q c0 Q. now apply K, F1.
    + intros q Q. now apply K, D1.
    + exact F1.
    + exact D1.
Qed.


(** A run of [react-component] changes no file but its destination and
    removes no directory. *)
Lemma plain_keeps (root : node) :
  let w := snd (plain_flow c arg d f content (start dir here input root)) in
  (forall q c0, q <> f -> Tree.stat q root = Tree.Found (File c0) ->
                Tree.stat q (fs w) = Tree.Found (File c0))
  /\ (forall q, dir_at q root = true -> dir_at q (fs w) = true).
Proof.
  unfold_flow.
  assert (K : forall r,
    (forall q c0, q <> f -> Tree.stat q r = Tree.Found (File c0) ->
       Tree.stat q match Tree.write f content r with inl r' => r' | inr _ => r end
       = Tree.Found (File c0))
    /\ (forall q, dir_at q r = true ->
          dir_at q match Tree.write f content r with inl r' => r' | inr _ => r end
          = true)).
  { intros r. destruct (Tree.write f content r) as [r'|e] eqn:E; [|auto].
    split.
    - intros q c0 N Q. now apply (@write_other_file f content r r' E).
    - intros q. now apply write_dir_at with (1 := E). }
  destruct (Tree.exists_ d root) eqn:E1; simpl.
  - specialize (K root). now destruct (Tree.write f content root).
  - destruct (Tree.mkdirp d root) as [root1|e] eqn:E2; simpl; [|auto].
    assert (F1 : forall q c0, Tree.stat q root = Tree.Found (File c0) ->
                              Tree.stat q root1 = Tree.Found (File c0))
      by (intros q c0; now apply mkdirp_file with (1 := E2)).
    assert (D1 : forall q, dir_at q root = true -> dir_at q root1 = true).
    { intros q. unfold dir_at.
      destruct (Tree.stat q root) as [[?|es]| |] eqn:Q; try discriminate.
      destruct (mkdirp_keeps _ _ E2 _ Q) as (x' & -> & I & _).
      now destruct x'. }
    specialize (K root1).
    destruct (Tree.write f content root1); simpl in *; split.
    + intros q c0 N Q. now apply K; [|apply F1].
    + intros q Q. now apply K, D1.
    + intros q c0 _. apply F1.
    + exact D1.
Qed.

(** Whatever the first run of [react-component] did, a second one leaves
    the tree as it found it. *)
Lemma plain_idempotent (root : node) :
  fs (snd (plain_flow c arg d f content
             (start dir here input
                (fs (snd (plain_flow c arg d f content
                            (start dir here input root)))))))
  = fs (snd (plain_flow c arg d f content (start dir here input root))).
Proof.
  unfold_flow.
  destruct (Tree.exists_ d root) eqn:E1; simpl.
  - destruct (Tree.write f content root) as [root2|e] eqn:E4; simpl.
    + rewrite (write_exists _ _ _ d E4 E1); simpl.
      now rewrite (write_again _ _ _ E4).
    + rewrite E1; simpl. now rewrite E4.
  - destruct (Tree.mkdirp d root) as [root1|e] eqn:E2; simpl.
    + assert (D := mkdirp_dir_at _ _ E2).
      destruct (Tree.write f content root1) as [root2|e] eqn:E4; simpl.
      * rewrite (dir_at_exists _ _ (write_dir_at _ _ _ d E4 D)); simpl.
        now rewrite (write_again _ _ _ E4).
      * rewrite (dir_at_exists _ _ D); simpl. now rewrite E4.
    + rewrite E1; simpl. now rewrite E2.
Qed.

(** After a run of [react-component] that reported success, a second run
    writes the same text again and reports success again. *)
Lemma plain_again (root : node) :
  let first := snd (plain_flow c arg d f content (start dir here input root)) in
  In (success c arg) (trace first) ->
  plain_flow c arg d f content (start dir here input (fs first)) =
  (Normal tt,
   mkProcess dir here input (fs first)
     [ announcement c arg; CallExists d true; CallWrite f content;
       success c arg ]).
Proof.
  unfold_flow.
  destruct (Tree.exists_ d root) eqn:E1; simpl.
  - destruct (Tree.write f content root) as [root2|e] eqn:E4; simpl;
      [|intros H; absurd_event H].
    intros _. rewrite (write_exists _ _ _ d E4 E1); simpl.
    now rewrite (write_again _ _ _ E4).
  - destruct (Tree.mkdirp d root) as [root1|e] eqn:E2; simpl;
      [|intros H; absurd_event H].
    assert (D := mkdirp_dir_at _ _ E2).
    destruct (Tree.write f content root1) as [root2|e] eqn:E4; simpl;
      [|intros H; absurd_event H].
    intros _. rewrite (dir_at_exists _ _ (write_dir_at _ _ _ d E4 D)); simpl.
    now rewrite (write_again _ _ _ E4).
Qed.

End Kept.

(** X1. Each of the four guarded commands ([express-model],
    [express-controller], [express-route], [express-middleware]) run twice:
    the second run leaves the tree as the first left it; when the first run
    reported success, the second makes the two [existsSync] calls, prints
    its "already exists" line and stops, the destination holds the text the
    first run wrote, and one write is made over both runs. *)
Theorem guarded_command_twice
  (c : command) (arg : string) (dir here : path) (root : node) :
  is_guarded c = true ->
  let first := run c arg dir here root in
  let second := run_again c arg dir here root in
  let d := target_dir c dir in
  let f := destination c arg dir in
  fs (snd second) = fs (snd first)
  /\ (In (success c arg) (trace (snd first)) ->
      second =
      (Normal tt,
       mkProcess dir here [] (fs (snd first))
         [ announcement c arg; CallExists d true; CallExists f true;
           already_exists c arg ])
      /\ Tree.stat f (fs (snd second)) = Tree.Found (File (generated c arg))
      /\ filter is_write (trace (snd first) ++ trace (snd second))
         = [CallWrite f (generated c arg)]).
Proof.
  intros Hc first second d f.
  unfold second, run_again. fold first. unfold run in *.
  assert (G : forall r, action c arg (start dir here [] r) =
              guarded_flow c arg d f (generated c arg) (start dir here [] r))
    by (intros r; now rewrite action_guarded).
  subst first. rewrite !G. split; [apply guarded_idempotent|].
  intros H.
  destruct (guarded_created c arg d f (generated c arg) dir here [] root H)
    as (F & D & _).
  assert (X : Tree.exists_ f
                (fs (snd (guarded_flow c arg d f (generated c arg)
                            (start dir here [] root)))) = true)
    by (unfold Tree.exists_; now rewrite F).
  rewrite (guarded_taken c arg d f (generated c arg) dir here [] _ D X).
  split; [reflexivity|]. split; [exact F|].
  rewrite filter_app.
  rewrite (guarded_one_write c arg d f (generated c arg) dir here [] root H).
  reflexivity.
Qed.

(** [express-middleware auth], twice, in the empty project. *)
Lemma guarded_command_twice_witness :
  run_again ExpressMiddleware "auth" project_dir install_dir empty_project =
  (Normal tt,
   mkProcess project_dir install_dir []
     (fs (snd (run ExpressMiddleware "auth" project_dir install_dir empty_project)))
     [ Log Blue "Creating middleware file: auth";
       CallExists ["home"; "proj"; "middlewares"] true;
       CallExists ["home"; "proj"; "middlewares"; "auth.js"] true;
       Log Red "Middleware auth already exists." ]).
Proof.
  destruct (@guarded_command_twice ExpressMiddleware "auth" project_dir
              install_dir empty_project eq_refl) as [_ K].
  destruct K as (E & _); [vm_compute; in_list | exact E].
Defined.

(** X2. A guarded command never changes or removes what is there:
    every file of the tree keeps its content and every directory stays a
    directory, whatever the argument and whether the run succeeds or not. *)
Theorem guarded_command_keeps_files
  (c : command) (arg : string) (dir here : path) (root : node) :
  is_guarded c = true ->
  let w := snd (run c arg dir here root) in
  (forall q content, Tree.stat q root = Tree.Found (File content) ->
                     Tree.stat q (fs w) = Tree.Found (File content))
  /\ (forall q, dir_at q root = true -> dir_at q (fs w) = true).
Proof.
  intros Hc. unfold run. rewrite action_guarded by exact Hc.
  apply guarded_keeps.
Qed.

(** [express-model ../src/components/Header] does not touch the edited
    [Header.jsx], nor the installed template. *)
Lemma guarded_command_keeps_files_witness :
  let w := snd (run ExpressModel "../src/components/Header" project_dir
                  install_dir edited_project) in
  Tree.stat ["home"; "proj"; "src"; "components"; "Header.jsx"] (fs w)
  = Tree.Found (File "// edited by hand")
  /\ dir_at ["opt"; "mern"; "templates"; "express"] (fs w) = true.
Proof.
  destruct (@guarded_command_keeps_files ExpressModel "../src/components/Header"
              project_dir install_dir edited_project eq_refl) as [F D].
  split; [apply F; reflexivity | apply D; reflexivity].
Defined.

(** X3. [react-component] changes no file other than its destination
    and removes no directory. *)
Theorem react_component_keeps_other_files
  (componentName : string) (dir here : path) (root : node) :
  let w := snd (run ReactComponent componentName dir here root) in
  let componentFile :=
    Path.join (Path.join (Path.join dir "src") "components")
      (componentName ++ ".jsx") in
  (forall q content,
      q <> componentFile ->
      Tree.stat q root = Tree.Found (File content) ->
      Tree.stat q (fs w) = Tree.Found (File content))
  /\ (forall q, dir_at q root = true -> dir_at q (fs w) = true).
Proof.
  unfold run. rewrite action_plain.
  apply (plain_keeps ReactComponent componentName
           (target_dir ReactComponent dir)
           (destination ReactComponent componentName dir)
           (generated ReactComponent componentName) dir here []).
Qed.

(** [react-component Footer] beside the edited [Header.jsx]. *)
Lemma react_component_keeps_other_files_witness :
  Tree.stat ["home"; "proj"; "src"; "components"; "Header.jsx"]
    (fs (snd (run ReactComponent "Footer" project_dir install_dir edited_project)))
  = Tree.Found (File "// edited by hand").
Proof.
  apply (proj1 (@react_component_keeps_other_files "Footer" project_dir
                  install_dir edited_project));
    [discriminate | reflexivity].
Defined.

(** X4. [react-component] run twice: the second run leaves the tree as
    the first left it; when the first run reported success, the second
    does not look for the file, writes the same text to it once more and
    reports success once more. *)
Theorem react_component_twice
  (componentName : string) (dir here : path) (root : node) :
  let first := run ReactComponent componentName dir here root in
  let second := run_again ReactComponent componentName dir here root in
  let componentDir := Path.join (Path.join dir "src") "components" in
  let componentFile := Path.join componentDir (componentName ++ ".jsx") in
  fs (snd second) = fs (snd first)
  /\ (In (Log Green ("Component " ++ componentName ++ " created successfully!"))
         (trace (snd first)) ->
      second =
      (Normal tt,
       mkProcess dir here [] (fs (snd first))
         [ Log Blue ("Creating React component: " ++ componentName);
           CallExists componentDir true;
           CallWrite componentFile (Str.trim (componentTemplate componentName));
           Log Green ("Component " ++ componentName ++ " created successfully!") ])).
Proof.
  intros first second componentDir componentFile.
  unfold second, run_again. fold first. unfold run in *.
  subst first. rewrite !action_plain. split.
  - apply plain_idempotent.
  - intros H.
    apply (plain_again ReactComponent componentName componentDir componentFile
             (Str.trim (componentTemplate componentName)) dir here [] root H).
Qed.

(** [react-component Header], twice, in the empty project. *)
Lemma react_component_twice_witness :
  trace (snd (run_again ReactComponent "Header" project_dir install_dir
                empty_project)) =
  [ Log Blue "Creating React component: Header";
    CallExists ["home"; "proj"; "src"; "components"] true;
    CallWrite ["home"; "proj"; "src"; "components"; "Header.jsx"]
      (Str.trim (componentTemplate "Header"));
    Log Green "Component Header created successfully!" ].
Proof.
  destruct (@react_component_twice "Header" project_dir install_dir empty_project)
    as [_ K].
  rewrite K; [reflexivity | vm_compute; in_list].
Defined.



(** ** Where a file command writes *)

(** The last piece of [a ++ e], for an [e] without separator, is the last
    piece of [a] followed by [e]. *)
Lemma split_on_extension (a e : string) :
  Str.has_slash e = false ->
  exists init leaf,
    Str.split_on "/" (a ++ e) = (init ++ [(leaf ++ e)%string])%list
    /\ Str.split_on "/" a = (init ++ [leaf])%list
    /\ Str.has_slash leaf = false.
Proof.
  intros He. induction a as [|c a (init & leaf & E1 & E2 & L)].
  - exists [], "". simpl. now rewrite split_on_plain.
  - simpl. destruct (Ascii.eqb c "/") eqn:C.
    + exists ("" :: init), leaf. simpl. now rewrite E1, E2.
    + rewrite E1, E2. destruct init as [|h t].
      * exists [], (String c leaf). simpl. now rewrite C, L.
      * exists (String c h :: t), leaf. auto.
Qed.

Lemma fold_left_step_leaf (init : list string) (leaf : string) (d : path) :
  3 <= String.length leaf ->
  fold_left Path.step (init ++ [leaf])%list d
  = (fold_left Path.step init d ++ [leaf])%list.
Proof.
  intros L. rewrite fold_left_app. simpl. unfold Path.step.
  destruct (String.eqb_spec leaf "") as [E|_]; [rewrite E in L; simpl in L; lia|].
  destruct (String.eqb_spec leaf ".") as [E|_]; [rewrite E in L; simpl in L; lia|].
  destruct (String.eqb_spec leaf "..") as [E|_]; [rewrite E in L; simpl in L; lia|].
  reflexivity.
Qed.

(** X6. Whatever the argument, the path a file command writes to ends
    in a component that carries the extension of the command ([.jsx] for
    [react-component], [.js] for the others) after a piece without
    separator; an argument without separator names a file directly in the
    target directory. *)
Theorem destination_has_extension (c : command) (arg : string) (dir : path) :
  is_file_command c = true ->
  exists parent leaf,
    destination c arg dir = (parent ++ [(leaf ++ extension c)%string])%list
    /\ Str.has_slash leaf = false
    /\ (Str.has_slash arg = false -> parent = target_dir c dir /\ leaf = arg).
Proof.
  intros Hc.
  assert (He : Str.has_slash (extension c) = false
               /\ 3 <= String.length (extension c))
    by (destruct c; try discriminate Hc; split; simpl; (reflexivity || lia)).
  destruct He as [He Le].
  destruct (@split_on_extension arg (extension c) He) as (init & leaf & E1 & E2 & L).
  exists (fold_left Path.step init (target_dir c dir)), leaf.
  split; [|split; [exact L|]].
  - unfold destination, Path.join. rewrite E1. apply fold_left_step_leaf.
    rewrite length_append. lia.
  - intros Ha. rewrite (@split_on_plain arg Ha) in E2.
    change [arg] with ([] ++ [arg])%list in E2.
    apply app_inj_tail in E2 as [<- <-]. split; reflexivity.
Qed.

(** From [/home/proj], [express-model ../../../etc/passwd] writes to
    [/etc/passwd.js]. *)
Lemma destination_has_extension_witness :
  exists parent leaf,
    destination ExpressModel "../../../etc/passwd" project_dir
    = (parent ++ [(leaf ++ ".js")%string])%list
    /\ Str.has_slash leaf = false
    /\ destination ExpressModel "../../../etc/passwd" project_dir
       = ["etc"; "passwd.js"].
Proof.
  destruct (@destination_has_extension ExpressModel "../../../etc/passwd"
              project_dir eq_refl) as (parent & leaf & E & L & _).
  exists parent, leaf. split; [exact E|]. split; [exact L | reflexivity].
Defined.

(** ** A destination whose directory is not there *)

Section NoParent.
Variables (c : command) (arg : string) (d q : path) (s content : string).
Variables (dir here : path) (input : list string).



End NoParent.


(** ** What a run prints *)


(** ** Making the directories of a path *)

(** On the tree, [mkdir -p] fails only for a regular file in the way. *)
Lemma mkdirp_ok (p : path) (n : node) :
  (forall q c, Path.is_prefix q p = true -> Tree.stat q n <> Tree.Found (File c)) ->
  exists n', Tree.mkdirp p n = inl n'.
Proof.
  revert n. induction p as [|s p IH]; intros n H.
  - destruct n as [c|es]; [|simpl; eauto].
    exfalso. now apply (H [] c).
  - destruct n as [c|es]; [exfalso; now apply (H [] c)|]. simpl.
    destruct (IH (match Tree.assoc s es with
                  | Some child => child
                  | None => Dir []
                  end)) as [child' ->]; [|eauto].
    intros q c P Q. destruct (Tree.assoc s es) as [child|] eqn:A.
    + apply (H (s :: q) c); simpl; [now rewrite String.eqb_refl | now rewrite A].
    + destruct q; simpl in Q; discriminate.
Qed.

(** ** The project commands and the files that are there *)

(** A copy changes no file that is not at its destination or below it. *)
Lemma copy_keeps_outside (src dest q : path) (root : node) (c : string) :
  Path.is_prefix dest q = false ->
  Tree.stat q root = Tree.Found (File c) ->
  Tree.stat q (fst (Tree.copy src dest root)) = Tree.Found (File c).
Proof.
  intros P Q. unfold Tree.copy.
  destruct (Tree.stat src root) as [t| |]; try exact Q.
  assert (K : forall d root1,
             Tree.stat q root1 = Tree.Found (File c) ->
             Tree.stat q (fst match Tree.copy_node t d with
                              | Tree.Done result =>
                                  (Tree.graft dest result root1, @None error)
                              | Tree.Stopped remains e =>
                                  (Tree.graft dest remains root1, Some e)
                              end) = Tree.Found (File c)).
  { intros d root1 Q1. destruct (Tree.copy_node t d); simpl;
      now apply graft_keeps_file. }
  destruct (Tree.stat dest root) as [d| |]; try exact Q;
    match goal with
    | |- context [Tree.check_paths ?a ?b ?x ?y] =>
        destruct (Tree.check_paths a b x y); [exact Q|]
    end;
    (destruct (Tree.exists_ (Path.dirname dest) root);
     [|destruct (Tree.mkdirp (Path.dirname dest) root) as [root1|e] eqn:M;
       [|exact Q]]);
    apply K; try exact Q; eapply mkdirp_file; eauto.
Qed.

(** X11. A project command changes no file outside its destination:
    every file that is not at [<cwd>/<name>] or below it keeps its content,
    whether the copy succeeds, fails or stops halfway. *)
Theorem project_copy_outside_untouched
  (c : command) (arg : string) (dir here : path) (root : node) :
  is_project_command c = true ->
  let w := snd (run c arg dir here root) in
  forall q content,
    Path.is_prefix (Path.join dir arg) q = false ->
    Tree.stat q root = Tree.Found (File content) ->
    Tree.stat q (fs w) = Tree.Found (File content).
Proof.
  intros Hc w q content P Q. subst w. unfold run.
  rewrite project_run by exact Hc. now apply copy_keeps_outside.
Qed.

(** [express app] over an [app] where the copy stops halfway leaves the
    installed template as it is; so does [express ../../opt]. *)
Lemma project_copy_outside_untouched_witness :
  Tree.stat ["opt"; "mern"; "templates"; "express"; "index.js"]
    (fs (snd (run Express "app" project_dir install_dir project_with_clash)))
  = Tree.Found (File "const express = require('express');")
  /\ Tree.stat ["home"; "proj"; "app"; "notes.txt"]
       (fs (snd (run Express "other" project_dir install_dir project_with_app)))
     = Tree.Found (File "mine").
Proof.
  split.
  - apply (@project_copy_outside_untouched Express "app" project_dir install_dir
             project_with_clash eq_refl); reflexivity.
  - apply (@project_copy_outside_untouched Express "other" project_dir install_dir
             project_with_app eq_refl); reflexivity.
Defined.

(** ** The generated route and middleware *)

(** X12. [express-route N], when it reports success, has written to
    [routes/N.js] the text of its template with [N] at each interpolation
    point: the import of [getAllNs] and [createN] from
    [../controllers/N.js], and the two routes that use them. *)
Theorem express_route_content (routeName : string) (dir here : path) (root : node) :
  let w := snd (run ExpressRoute routeName dir here root) in
  let routeFile := Path.join (Path.join dir "routes") (routeName ++ ".js") in
  let content :=
    text [ "import express from 'express';";
           "import { getAll" ++ routeName ++ "s, create" ++ routeName
             ++ " } from '../controllers/" ++ routeName ++ ".js';";
           "";
           "const router = express.Router();";
           "";
           "router.get('/', getAll" ++ routeName ++ "s);";
           "router.post('/', create" ++ routeName ++ ");";
           "";
           "export default router;" ] in
  In (Log Green ("Route " ++ routeName ++ " created successfully!")) (trace w) ->
  Tree.stat routeFile (fs w) = Tree.Found (File content)
  /\ Str.occurs_in
       ("import { getAll" ++ routeName ++ "s, create" ++ routeName
          ++ " } from '../controllers/" ++ routeName ++ ".js';") content
  /\ Str.occurs_in ("router.get('/', getAll" ++ routeName ++ "s);") content
  /\ Str.occurs_in ("router.post('/', create" ++ routeName ++ ");") content.
Proof.
  intros w routeFile content H.
  destruct (run_created ExpressRoute routeName dir here root eq_refl H) as (F & _).
  split; [|split; [|split]].
  - unfold generated in F. rewrite trim_routeTemplate in F. exact F.
  - exists ("import express from 'express';" ++ Str.nl).
    eexists. unfold content. string_eq.
  - exists ("import express from 'express';" ++ Str.nl
            ++ "import { getAll" ++ routeName ++ "s, create" ++ routeName
            ++ " } from '../controllers/" ++ routeName ++ ".js';" ++ Str.nl
            ++ "" ++ Str.nl ++ "const router = express.Router();" ++ Str.nl
            ++ "" ++ Str.nl).
    eexists. unfold content. string_eq.
  - exists ("import express from 'express';" ++ Str.nl
            ++ "import { getAll" ++ routeName ++ "s, create" ++ routeName
            ++ " } from '../controllers/" ++ routeName ++ ".js';" ++ Str.nl
            ++ "" ++ Str.nl ++ "const router = express.Router();" ++ Str.nl
            ++ "" ++ Str.nl
            ++ "router.get('/', getAll" ++ routeName ++ "s);" ++ Str.nl).
    eexists. unfold content. string_eq.
Qed.

(** [express-route Item] in the empty project. *)
Lemma express_route_content_witness :
  Str.occurs_in "import { getAllItems, createItem } from '../controllers/Item.js';"
    (text [ "import express from 'express';";
            "import { getAllItems, createItem } from '../controllers/Item.js';";
            "";
            "const router = express.Router();";
            "";
            "router.get('/', getAllItems);";
            "router.post('/', createItem);";
            "";
            "export default router;" ]).
Proof.
  refine (proj1 (proj2 (@express_route_content "Item" project_dir install_dir
                          empty_project _))).
  vm_compute. in_list.
Defined.

(** X13. [express-middleware N], when it reports success, has written
    to [middlewares/N.js] the text of its template with [N] at each
    interpolation point: the comment, the function [N], the line it logs
    and the default export. *)
Theorem express_middleware_content (fileName : string) (dir here : path)
  (root : node) :
  let w := snd (run ExpressMiddleware fileName dir here root) in
  let middlewareFile :=
    Path.join (Path.join dir "middlewares") (fileName ++ ".js") in
  let content :=
    text [ "// Middleware boilerplate for " ++ fileName;
           "";
           "const " ++ fileName ++ " = (req, res, next) => {";
           "  // Your middleware logic here";
           "  console.log('" ++ fileName ++ " middleware triggered');";
           "  next();";
           "};";
           "";
           "export default " ++ fileName ++ ";" ] in
  In (Log Green ("Middleware " ++ fileName ++ " created successfully!")) (trace w) ->
  Tree.stat middlewareFile (fs w) = Tree.Found (File content)
  /\ Str.occurs_in ("// Middleware boilerplate for " ++ fileName) content
  /\ Str.occurs_in ("const " ++ fileName ++ " = (req, res, next) => {") content
  /\ Str.occurs_in ("console.log('" ++ fileName ++ " middleware triggered');") content
  /\ Str.occurs_in ("export default " ++ fileName ++ ";") content.
Proof.
  intros w middlewareFile content H.
  destruct (run_created ExpressMiddleware fileName dir here root eq_refl H)
    as (F & _).
  split; [|split; [|split; [|split]]].
  - unfold generated in F. rewrite trim_middlewareTemplate in F. exact F.
  - exists "". eexists. unfold content. string_eq.
  - exists ("// Middleware boilerplate for " ++ fileName ++ Str.nl ++ "" ++ Str.nl).
    eexists. unfold content. string_eq.
  - exists ("// Middleware boilerplate for " ++ fileName ++ Str.nl ++ "" ++ Str.nl
            ++ "const " ++ fileName ++ " = (req, res, next) => {" ++ Str.nl
            ++ "  // Your middleware logic here" ++ Str.nl ++ "  ").
    eexists. unfold content. string_eq.
  - exists ("// Middleware boilerplate for " ++ fileName ++ Str.nl ++ "" ++ Str.nl
            ++ "const " ++ fileName ++ " = (req, res, next) => {" ++ Str.nl
            ++ "  // Your middleware logic here" ++ Str.nl
            ++ "  console.log('" ++ fileName ++ " middleware triggered');" ++ Str.nl
            ++ "  next();" ++ Str.nl ++ "};" ++ Str.nl ++ "" ++ Str.nl).
    exists "". unfold content. string_eq.
Qed.

(** [express-middleware auth] in the empty project. *)
Lemma express_middleware_content_witness :
  Tree.stat ["home"; "proj"; "middlewares"; "auth.js"]
    (fs (snd (run ExpressMiddleware "auth" project_dir install_dir empty_project)))
  = Tree.Found
      (File (text [ "// Middleware boilerplate for auth";
                    "";
                    "const auth = (req, res, next) => {";
                    "  // Your middleware logic here";
                    "  console.log('auth middleware triggered');";
                    "  next();";
                    "};";
                    "";
                    "export default auth;" ])).
Proof.
  refine (proj1 (@express_middleware_content "auth" project_dir install_dir
                   empty_project _)).
  vm_compute. in_list.
Defined.

(** ** The route and the controller it imports from *)

Lemma prefix_append (t post : string) : String.prefix t (t ++ post) = true.
Proof.
  induction t as [|a t IH]; simpl; [now destruct post|].
  destruct (Ascii.ascii_dec a a); [exact IH | congruence].
Qed.

Lemma occurs_contains (t s : string) :
  Str.occurs_in t s -> Str.contains t s = true.
Proof.
  intros (pre & post & ->). induction pre as [|c pre IH].
  - change ("" ++ t ++ post) with (t ++ post).
    assert (P := prefix_append t post).
    destruct (t ++ post); cbn [Str.contains]; now rewrite P.
  - change (String c pre ++ t ++ post) with (String c (pre ++ t ++ post)).
    cbn [Str.contains]. rewrite IH. apply orb_true_r.
Qed.

(** From the directory of the route, the path of its import leads to the
    file [express-controller] writes for the same name. *)
Lemma import_path_resolves (name : string) (dir : path) :
  Str.has_slash name = false ->
  Path.join (Path.dirname (destination ExpressRoute name dir))
    ("../controllers/" ++ name ++ ".js")
  = destination ExpressController name dir.
Proof.
  intros Hn. unfold destination.
  rewrite !(join_plain_name _ _ Hn) by (now left).
  unfold Path.dirname. rewrite removelast_last.
  assert (P : Str.has_slash (name ++ ".js") = false)
    by (rewrite has_slash_app, Hn; reflexivity).
  assert (L : 3 <= String.length (name ++ ".js"))
    by (rewrite length_append; simpl; lia).
  unfold Path.join at 1.
  assert (E : Str.split_on "/" ("../controllers/" ++ name ++ ".js")
              = [".."; "controllers"; name ++ ".js"])
    by (simpl; rewrite (split_on_plain _ P); reflexivity).
  rewrite E.
  change [".."; "controllers"; name ++ ".js"]
    with ([".."; "controllers"] ++ [(name ++ ".js")%string])%list.
  rewrite fold_left_step_leaf by exact L.
  change (target_dir ExpressRoute dir) with (dir ++ ["routes"])%list.
  change (fold_left Path.step [".."; "controllers"] (dir ++ ["routes"])%list)
    with (removelast (dir ++ ["routes"]) ++ ["controllers"])%list.
  now rewrite removelast_last.
Qed.

(** X14. [express-controller N] followed by [express-route N], for a
    name without separator, both reporting success: the route file imports
    [getAllNs] and [createN] from the path that leads to the controller
    file, and the controller file, which the route command left alone,
    holds the one line [//Your Code here], in which neither name occurs. *)
Theorem route_imports_from_bare_controller
  (name : string) (dir here : path) (root : node) :
  Str.has_slash name = false ->
  let w1 := snd (run ExpressController name dir here root) in
  let w2 := snd (run ExpressRoute name dir here (fs w1)) in
  let controllerFile := Path.join (Path.join dir "controllers") (name ++ ".js") in
  let routeFile := Path.join (Path.join dir "routes") (name ++ ".js") in
  In (Log Green ("Controller " ++ name ++ " created successfully!")) (trace w1) ->
  In (Log Green ("Route " ++ name ++ " created successfully!")) (trace w2) ->
  exists route,
    Tree.stat routeFile (fs w2) = Tree.Found (File route)
    /\ Str.occurs_in
         ("import { getAll" ++ name ++ "s, create" ++ name
            ++ " } from '../controllers/" ++ name ++ ".js';") route
    /\ Path.join (Path.dirname routeFile) ("../controllers/" ++ name ++ ".js")
       = controllerFile
    /\ Tree.stat controllerFile (fs w2) = Tree.Found (File "//Your Code here")
    /\ ~ Str.occurs_in ("getAll" ++ name ++ "s") "//Your Code here"
    /\ ~ Str.occurs_in ("create" ++ name) "//Your Code here".
Proof.
  intros Hn w1 w2 controllerFile routeFile H1 H2.
  destruct (run_created ExpressController name dir here root eq_refl H1)
    as (F1 & _).
  destruct (run_created ExpressRoute name dir here (fs w1) eq_refl H2)
    as (F2 & _).
  eexists. split; [exact F2|]. split; [|split; [|split; [|split]]].
  - unfold generated. rewrite trim_routeTemplate.
    exists ("import express from 'express';" ++ Str.nl).
    eexists. string_eq.
  - now apply import_path_resolves.
  - subst w2. unfold run. rewrite action_guarded by reflexivity.
    apply guarded_keeps. exact F1.
  - intros O. apply occurs_contains in O. discriminate O.
  - intros O. apply occurs_contains in O. discriminate O.
Qed.

(** [express-controller Item], then [express-route Item], in the empty
    project. *)
Lemma route_imports_from_bare_controller_witness :
  let w1 := snd (run ExpressController "Item" project_dir install_dir
                   empty_project) in
  let w2 := snd (run ExpressRoute "Item" project_dir install_dir (fs w1)) in
  Tree.stat ["home"; "proj"; "controllers"; "Item.js"] (fs w2)
  = Tree.Found (File "//Your Code here")
  /\ Path.join ["home"; "proj"; "routes"] "../controllers/Item.js"
     = ["home"; "proj"; "controllers"; "Item.js"].
Proof.
  destruct (@route_imports_from_bare_controller "Item" project_dir install_dir
              empty_project eq_refl) as (route & _ & _ & P & C & _).
  - vm_compute. in_list.
  - vm_compute. in_list.
  - split; [exact C | exact P].
Defined.

(** ** The working directory, the catch clauses and the helper *)

(** Every action asks for the working directory before anything else
    that can fail, and outside its [try]: if the call throws, the action
    throws; if it answers, the action goes on as in a working directory
    that is there. *)
Lemma action_cwd (S : Type) (FS : FileSystem S) (WD : WorkingDirectory S)
  (c : command) (arg : string) (w : process S) :
  @action S FS WD c arg w =
  match uv_cwd (cwd w) (fs w) with
  | None => @action S FS cwd_there c arg w
  | Some e => throw e w
  end.
Proof.
  destruct c;
    cbv beta iota zeta delta
      [action express_action react_action react_component_action
       express_model_action express_controller_action express_route_action
       express_middleware_action call bind process_cwd module_dirname];
    destruct (uv_cwd (cwd w) (fs w)); reflexivity.
Qed.

(** The destination of a guarded command is never its target directory:
    its last component carries the extension. *)
Lemma destination_not_target (c : command) (arg : string) (dir : path) :
  is_guarded c = true -> destination c arg dir <> target_dir c dir.
Proof.
  intros Hc E.
  assert (He : Str.has_slash (extension c) = false /\ extension c = ".js")
    by (destruct c; try discriminate Hc; split; reflexivity).
  destruct He as [He Ex].
  destruct (@split_on_extension arg (extension c) He) as (init & leaf & E1 & _).
  unfold destination, Path.join in E. rewrite E1 in E.
  rewrite fold_left_step_leaf in E
    by (rewrite length_append, Ex; simpl; lia).
  assert (T : exists sub, target_dir c dir = (dir ++ [sub])%list
                          /\ Str.contains ".js" sub = false)
    by (destruct c; try discriminate Hc; eexists; split; reflexivity).
  destruct T as (sub & T & N). rewrite T in E.
  apply app_inj_tail in E as [_ E].
  assert (O : Str.occurs_in ".js" sub)
    by (exists leaf, ""; rewrite <- E, Ex; reflexivity).
  apply occurs_contains in O. congruence.
Qed.

Ltac split_calls_eqn :=
  repeat match goal with
         | |- context [existsSync ?p ?s] => destruct (existsSync p s); simpl
         | |- context [mkdirSync ?p ?s] =>
             let E := fresh "E" in
             destruct (mkdirSync p s) as [? [?|]] eqn:E; simpl
         | |- context [writeFileSync ?p ?x ?s] =>
             let E := fresh "E" in
             destruct (writeFileSync p x s) as [? [?|]] eqn:E; simpl
         | |- context [copySync ?p ?q ?s] =>
             let E := fresh "E" in
             destruct (copySync p q s) as [? [?|]] eqn:E; simpl
         end.

Section Caught.
Context {S : Type} {FS : FileSystem S}.
Variables (c : command) (arg : string) (dir here : path) (input : list string).

(** A guarded run whose test for the destination answers [true] prints
    the "already exists" line. *)
Lemma action_says_exists (s : S) :
  is_guarded c = true ->
  let w := snd (action c arg (start dir here input s)) in
  In (CallExists (destination c arg dir) true) (trace w) ->
  In (already_exists c arg) (trace w).
Proof.
  intros Hc.
  assert (N := @destination_not_target c arg dir Hc).
  destruct c; try discriminate Hc; unfold_action; split_calls; intros H;
    try (in_list; fail);
    simpl in H;
    repeat (destruct H as [H|H];
            [try discriminate H; inversion H; try congruence;
             exfalso; apply N; symmetry; assumption|]);
    destruct H.
Qed.

(** An exception raised in a run in a working directory that is there
    is the error of a call into [fs]. *)
Lemma action_raises (WD : WorkingDirectory S) (s : S) (e : error) :
  let w := snd (@action S FS cwd_there c arg (start dir here input s)) in
  In (Threw e) (trace w) -> @raised_by_environment S FS WD e.
Proof.
  unfold raised_by_environment.
  destruct c; unfold_action; split_calls_eqn; intros H; simpl in H;
    repeat (destruct H as [H|H]; [try discriminate H; inversion H; subst|]);
    try destruct H;
    match goal with
    | E : mkdirSync ?p ?s0 = (_, Some ?x) |- _ =>
        right; left; exists p, s0; now rewrite E
    | E : writeFileSync ?p ?y ?s0 = (_, Some ?x) |- _ =>
        right; right; left; exists p, y, s0; now rewrite E
    | E : copySync ?a ?b ?s0 = (_, Some ?x) |- _ =>
        right; right; right; exists a, b, s0; now rewrite E
    end.
Qed.

End Caught.

(** A copy on the tree stops with an error of the library. *)
Lemma copy_node_library (t : node) :
  forall d remains e, Tree.copy_node t d = Tree.Stopped remains e ->
  exists message, e = LibraryError message.
Proof.
  induction t as [c|es IH] using node_induction; intros d remains e.
  - destruct d as [[x|ds]|]; simpl; try discriminate.
    intros H; inversion H; subst. now eexists.
  - destruct d as [[x|ds]|]; simpl.
    + intros H; inversion H; subst. now eexists.
    + revert ds. induction IH as [|[s child] es' Hc _ IHes]; intros ds; simpl;
        [discriminate|].
      destruct (Tree.copy_node child (Tree.assoc s ds)) as [child'|r x] eqn:E.
      * apply IHes.
      * intros H; inversion H; subst. exact (Hc _ _ _ E).
    + generalize (@nil (string * node)).
      induction IH as [|[s child] es' Hc _ IHes]; intros ds; simpl;
        [discriminate|].
      destruct (Tree.copy_node child (Tree.assoc s ds)) as [child'|r x] eqn:E.
      * apply IHes.
      * intros H; inversion H; subst. exact (Hc _ _ _ E).
Qed.

(** On the tree no call raises a [ReferenceError]: the calls fail with
    the error of a system call or of the library. *)
Lemma tree_raises_no_reference (WD : WorkingDirectory node) (ident : string) :
  (forall p root, uv_cwd p root <> Some (ReferenceError ident)) ->
  ~ @raised_by_environment node tree_fs WD (ReferenceError ident).
Proof.
  intros N [(p & s & H)|[(p & s & H)|[(p & x & s & H)|(a & b & s & H)]]].
  - exact (N _ _ H).
  - simpl in H. destruct (Tree.mkdirp p s); discriminate H.
  - simpl in H. destruct (Tree.write p x s); discriminate H.
  - simpl in H. unfold Tree.copy in H.
    destruct (Tree.stat a s) as [t| |]; try discriminate H.
    destruct (Tree.stat b s) as [d| |] eqn:D; try discriminate H.
    + destruct (Tree.check_paths a b t (Some d)) as [e|] eqn:C.
      { unfold Tree.check_paths in C.
        repeat match type of C with
               | (if ?b then _ else _) = _ => destruct b
               end; inversion C; subst; discriminate H. }
      destruct (if Tree.exists_ (Path.dirname b) s then inl s
                else Tree.mkdirp (Path.dirname b) s); try discriminate H.
      destruct (Tree.copy_node t (Some d)) as [r|r e] eqn:E; try discriminate H.
      destruct (copy_node_library _ _ E) as [m ->]. discriminate H.
    + destruct (Tree.check_paths a b t None) as [e|] eqn:C.
      { unfold Tree.check_paths in C.
        repeat match type of C with
               | (if ?b then _ else _) = _ => destruct b
               end; inversion C; subst; discriminate H. }
      destruct (if Tree.exists_ (Path.dirname b) s then inl s
                else Tree.mkdirp (Path.dirname b) s); try discriminate H.
      destruct (Tree.copy_node t None) as [r|r e] eqn:E; try discriminate H.
      destruct (copy_node_library _ _ E) as [m ->]. discriminate H.
Qed.

(** C7. Every action asks for the working directory before its [try].
    When the call answers, the action ends normally whatever the file
    system does, so the process ends with status 0: an exception raised by
    a call into the file system is caught and logged by the [catch] clause
    of the action, and a guarded command that finds its destination there
    prints the "already exists" line.  When the call throws, nothing
    catches the exception: the action ends with it, having printed
    nothing, and the process ends with status 1. *)
Theorem failures_leave_exit_status
  (S : Type) (FS : FileSystem S) (WD : WorkingDirectory S)
  (c : command) (arg : string) (dir here : path) (input : list string) (s : S) :
  let r := @action S FS WD c arg (start dir here input s) in
  (uv_cwd dir s = None ->
   fst r = Normal tt
   /\ exit_status (fst r) = 0
   /\ (forall e, In (Threw e) (trace (snd r)) -> In (failure c e) (trace (snd r)))
   /\ (is_guarded c = true ->
       In (CallExists (destination c arg dir) true) (trace (snd r)) ->
       In (already_exists c arg) (trace (snd r))))
  /\ (forall e, uv_cwd dir s = Some e ->
      r = (Throw e, mkProcess dir here input s [Threw e])
      /\ exit_status (fst r) = 1).
Proof.
  intros r. subst r. rewrite action_cwd.
  change (cwd (start dir here input s)) with dir.
  change (fs (start dir here input s)) with s.
  split.
  - intros ->. repeat split.
    + apply action_normal.
    + now rewrite action_normal.
    + intros e. apply action_logs.
    + intros Hc. now apply action_says_exists.
  - intros e ->. split; reflexivity.
Qed.

(** [react app] where the React template is not installed, and
    [express-route Item] where [routes/Item.js] is there. *)
Lemma failures_leave_exit_status_witness :
  (In (LogError Red "Error copying template files:"
         (SystemError ENOENT "lstat" ["opt"; "mern"; "templates"; "react"]))
      (trace (snd (@action node tree_fs tree_cwd React "app"
                     (start project_dir install_dir [] empty_project))))
   /\ exit_status
        (fst (@action node tree_fs tree_cwd React "app"
                (start project_dir install_dir [] empty_project))) = 0)
  /\ In (Log Red "Route Item already exists.")
        (trace (snd (@action node tree_fs tree_cwd ExpressRoute "Item"
                       (start project_dir install_dir [] taken_project)))).
Proof.
  split.
  - destruct (@failures_leave_exit_status node tree_fs tree_cwd React "app"
                project_dir install_dir [] empty_project) as [H _].
    destruct (H eq_refl) as (_ & X & L & _).
    split; [apply L; vm_compute; in_list | exact X].
  - destruct (@failures_leave_exit_status node tree_fs tree_cwd ExpressRoute "Item"
                project_dir install_dir [] taken_project) as [H _].
    destruct (H eq_refl) as (_ & _ & _ & L).
    apply (L eq_refl). vm_compute. in_list.
Defined.

(** [express-model User] in a working directory that has been removed:
    the exception of [process.cwd()] leaves the action, nothing is printed,
    nothing is written, and the process ends with status 1. *)
Lemma working_directory_removed :
  let r := @action node tree_fs tree_cwd ExpressModel "User"
             (start ["home"; "gone"] install_dir [] empty_project) in
  fst r = Throw (SystemError ENOENT "uv_cwd" ["home"; "gone"])
  /\ exit_status (fst r) = 1
  /\ filter is_console (trace (snd r)) = []
  /\ fs (snd r) = empty_project.
Proof. vm_compute. repeat split. Qed.

(** C8. [askUserConfirmation] is bound in the module, and no action
    calls it.  A call of the helper cannot go unnoticed: it throws the
    [ReferenceError] for [readline], whatever the question and the state.
    In a run, every exception that is thrown is the error of a call into
    the environment ([process.cwd()] or [fs]), so none comes from the
    helper; on the tree, where those calls raise no [ReferenceError], no
    run throws one.  No run asks a question or takes a line of input. *)
Theorem confirmation_never_asked
  (S : Type) (FS : FileSystem S) (WD : WorkingDirectory S)
  (c : command) (arg : string) (dir here : path) (input : list string) (s : S) :
  let w := snd (@action S FS WD c arg (start dir here input s)) in
  existsb (String.eqb "askUserConfirmation") module_bindings = true
  /\ (forall question (w0 : process S),
        In (Threw (ReferenceError "readline"))
           (trace (snd (askUserConfirmation question w0))))
  /\ (forall e, In (Threw e) (trace w) -> raised_by_environment e)
  /\ (forall root ident,
        ~ In (Threw (ReferenceError ident))
             (trace (snd (@action node tree_fs tree_cwd c arg
                            (start dir here input root)))))
  /\ existsb is_question (trace w) = false
  /\ stdin w = input.
Proof.
  assert (R : forall S' (FS' : FileSystem S') (WD' : WorkingDirectory S') s' e,
             In (Threw e)
                (trace (snd (@action S' FS' WD' c arg (start dir here input s')))) ->
             @raised_by_environment S' FS' WD' e).
  { intros S' FS' WD' s' e. rewrite action_cwd.
    change (cwd (start dir here input s')) with dir.
    change (fs (start dir here input s')) with s'.
    destruct (uv_cwd dir s') as [x|] eqn:E.
    - simpl. intros [H|[]]. inversion H; subst. left. eauto.
    - apply action_raises. }
  intros w. subst w. split; [reflexivity|].
  split.
  { intros question w0. unfold askUserConfirmation, bind, resolve, throw; simpl.
    apply in_or_app. right. now left. }
  split; [apply R|]. split.
  { intros root ident H. apply R in H. revert H.
    apply tree_raises_no_reference. intros p r. simpl.
    destruct (dir_at p r); discriminate. }
  rewrite action_cwd.
  change (cwd (start dir here input s)) with dir.
  change (fs (start dir here input s)) with s.
  destruct (uv_cwd dir s); [split; reflexivity | apply action_silent].
Qed.

(** [react app] where the template is not installed: the exception in
    the trace is the one [copySync] raised. *)
Lemma confirmation_never_asked_witness :
  @raised_by_environment node tree_fs tree_cwd
    (SystemError ENOENT "lstat" ["opt"; "mern"; "templates"; "react"]).
Proof.
  destruct (@confirmation_never_asked node tree_fs tree_cwd React "app"
              project_dir install_dir [] empty_project) as (_ & _ & H & _).
  apply H. vm_compute. in_list.
Defined.

(** ** Examples *)

Example join_plain :
  Path.join ["home"; "u"] "Item.js" = ["home"; "u"; "Item.js"].
Proof. reflexivity. Qed.

Example join_normalizes :
  Path.join ["home"; "u"] "a/../b//./c.js" = ["home"; "u"; "b"; "c.js"].
Proof. reflexivity. Qed.

Example join_stops_at_root : Path.join ["home"] "../../x" = ["x"].
Proof. reflexivity. Qed.

Example trim_keeps_inner_space :
  Str.trim (Str.nl ++ "  a b;  " ++ Str.nl) = "a b;".
Proof. reflexivity. Qed.

Example header_component :
  generated ReactComponent "Header" =
  text [ "import React from 'react';"; "";
         "const Header = () => {";
         "  return (";
         "    <div>";
         "      <h1>Header</h1>";
         "    </div>";
         "  );";
         "};";
         "export default Header;" ].
Proof. reflexivity. Qed.

Example nested_name_fails :
  trace (snd (run ExpressModel "a/b" project_dir install_dir empty_project)) =
  [ Log Blue "Creating MongoDB model: a/b";
    CallExists ["home"; "proj"; "models"] false;
    CallMkdir ["home"; "proj"; "models"];
    CallExists ["home"; "proj"; "models"; "a"; "b.js"] false;
    CallWrite ["home"; "proj"; "models"; "a"; "b.js"]
      (generated ExpressModel "a/b");
    Threw (SystemError ENOENT "open" ["home"; "proj"; "models"; "a"; "b.js"]);
    LogError Red "Error creating model:"
      (SystemError ENOENT "open" ["home"; "proj"; "models"; "a"; "b.js"]) ].
Proof. reflexivity. Qed.
